(** * LinuxStatsToMQTT: a shallow embedding of [LinuxStatsToMQTT.py]

    The agent reads a JSON configuration file, connects a paho MQTT client to
    a broker, publishes the CPU temperature at a configurable interval and
    reacts to JSON commands arriving on a control topic.

    The embedding keeps the program's shape:
    - Python values that flow through the program (everything [json.load]
      and [json.loads] can return) are the inductive type [json], with the
      operators the program applies to them ([==], [>], [-], [in], [v[k]],
      [+] on strings, [int]) and the exceptions these raise;
    - the module-level globals ([configuration], [telemetry],
      [config_file_name], [last_publish]) are the fields of [World], next to
      the trace of the calls made into the environment and the lines
      printed;
    - every function of the source is a computation in the state-and-exception
      monad [M]; a Python exception is the [Raise] outcome, and [try],
      [except] and [finally] are combinators of the monad;
    - what the operating system, the clock, the sensor and the MQTT client
      answer is given by an [Env] record of oracles, indexed by the number
      of calls made so far, so every theorem holds for every behaviour of
      the environment;
    - [while True] is cut off by a fuel; the outcome [Running] says that the
      loop has not ended within the fuel.

    The module-level initialisation and the callbacks [on_disconnect] and
    [on_publish] follow the program proper.  Left out: the assignment of the
    callbacks to the client (lines 156 to 159).  The message handler runs on the thread of the client; it is
    modelled as one atomic step on the shared world.  A [KeyboardInterrupt]
    is delivered at a call into the environment, not between two
    instructions of the program. *)

From Stdlib Require Import ZArith List String Ascii Bool Lia.
From Stdlib Require Import Floats.SpecFloat.
Import ListNotations.

Set Warnings "-register-all".

Local Open Scope string_scope.
Local Open Scope Z_scope.

(** ** Exceptions *)

(** The exception classes the program can meet.  [ValueError] also stands for
    its subclasses [json.JSONDecodeError] and [UnicodeDecodeError];
    [OSError] stands for every [OSError] that is none of the three
    subclasses listed; [OtherError] is any other [Exception]. *)
Inductive exn : Type :=
  | KeyboardInterrupt
  | KeyError (key : string)
  | TypeError
  | ValueError
  | OverflowError
  | OSError
  | ConnectionRefusedError
  | TimeoutError
  | InterruptedError
  | OtherError (name : string).

(** [isinstance(e, OSError)]. *)
Definition is_OSError (e : exn) : bool :=
  match e with
  | OSError | ConnectionRefusedError | TimeoutError | InterruptedError => true
  | _ => false
  end.

Inductive result (A : Type) : Type :=
  | Ok (a : A)
  | Raise (e : exn).
Arguments Ok {A} a.
Arguments Raise {A} e.

(** ** Python values *)

(** What [json.loads] returns: [None], [bool], [int], [float], [str], [list]
    and [dict].  A [dict] is an association list in insertion order. *)
Inductive json : Type :=
  | JNull
  | JBool (b : bool)
  | JInt (z : Z)
  | JFloat (f : spec_float)
  | JStr (s : string)
  | JList (l : list json)
  | JDict (d : list (string * json)).

Definition dict : Type := list (string * json).

Section Assoc.
Context {A : Type}.

(** [d[k]] on a dictionary: the first binding of [k]. *)
Fixpoint dict_get (d : list (string * A)) (k : string) : option A :=
  match d with
  | [] => None
  | (k', v) :: d' => if String.eqb k' k then Some v else dict_get d' k
  end.

(** [d[k] = v]: overwrite in place, or append a new key. *)
Fixpoint dict_set (d : list (string * A)) (k : string) (v : A)
  : list (string * A) :=
  match d with
  | [] => [(k, v)]
  | (k', v') :: d' =>
      if String.eqb k' k then (k', v) :: d' else (k', v') :: dict_set d' k v
  end.

Definition dict_mem (d : list (string * A)) (k : string) : bool :=
  match dict_get d k with Some _ => true | None => false end.
End Assoc.

(** *** Numbers *)

Definition Z_of_bool (b : bool) : Z := if b then 1 else 0.

(** A Python number: [bool] is a subclass of [int]. *)
Inductive num : Type :=
  | NInt (z : Z)
  | NFloat (f : spec_float).

Definition as_num (v : json) : option num :=
  match v with
  | JBool b => Some (NInt (Z_of_bool b))
  | JInt z => Some (NInt z)
  | JFloat f => Some (NFloat f)
  | _ => None
  end.

(** Python compares an [int] with a [float] exactly, without rounding the
    [int]; [nan] compares with nothing. *)
Definition float_compare_Z (f : spec_float) (z : Z) : option comparison :=
  match f with
  | S754_zero _ => Some (0 ?= z)
  | S754_infinity s => Some (if s then Lt else Gt)
  | S754_nan => None
  | S754_finite s m e =>
      let v := cond_Zopp s (Zpos m) in
      if 0 <=? e then Some (v * 2 ^ e ?= z) else Some (v ?= z * 2 ^ (- e))
  end.

Definition num_eqb (a b : num) : bool :=
  match a, b with
  | NInt x, NInt y => x =? y
  | NInt x, NFloat f | NFloat f, NInt x =>
      match float_compare_Z f x with Some Eq => true | _ => false end
  | NFloat f, NFloat g => SFeqb f g
  end.

(** [n > z]. *)
Definition num_gt_Z (n : num) (z : Z) : bool :=
  match n with
  | NInt x => x >? z
  | NFloat f => match float_compare_Z f z with Some Gt => true | _ => false end
  end.

(** [float(z)] as a binary64, [OverflowError] when [z] is out of range. *)
Definition float_of_Z (z : Z) : result spec_float :=
  match binary_normalize 53 1024 z 0 false with
  | S754_infinity _ => Raise OverflowError
  | f => Ok f
  end.

(** [a - v] for an [int] [a]. *)
Definition py_int_sub (a : Z) (v : json) : result num :=
  match as_num v with
  | Some (NInt b) => Ok (NInt (a - b))
  | Some (NFloat g) =>
      match float_of_Z a with
      | Ok f => Ok (NFloat (SFsub 53 1024 f g))
      | Raise e => Raise e
      end
  | None => Raise TypeError
  end.

(** [v > z] for an [int] [z]. *)
Definition py_gt_int (v : json) (z : Z) : result bool :=
  match as_num v with
  | Some n => Ok (num_gt_Z n z)
  | None => Raise TypeError
  end.

(** *** Equality, membership, subscription *)

(** [a == b]. *)
Fixpoint py_eq (a b : json) : bool :=
  match as_num a, as_num b with
  | Some x, Some y => num_eqb x y
  | _, _ =>
      match a, b with
      | JNull, JNull => true
      | JStr s, JStr t => String.eqb s t
      | JList l, JList m =>
          (fix all2 (l m : list json) : bool :=
             match l, m with
             | [], [] => true
             | x :: l', y :: m' => py_eq x y && all2 l' m'
             | _, _ => false
             end) l m
      | JDict d, JDict e =>
          Nat.eqb (List.length d) (List.length e)
          && (fix all (d : list (string * json)) : bool :=
                match d with
                | [] => true
                | (k, v) :: d' =>
                    match dict_get e k with
                    | Some v' => py_eq v v'
                    | None => false
                    end && all d'
                end) d
      | _, _ => false
      end
  end.

(** [needle in hay] for two strings: substring search. *)
Fixpoint str_contains (needle hay : string) : bool :=
  String.prefix needle hay
  || match hay with
     | EmptyString => false
     | String _ hay' => str_contains needle hay'
     end.

(** [k in v] for a string [k]. *)
Definition py_contains (v : json) (k : string) : result bool :=
  match v with
  | JDict d => Ok (dict_mem d k)
  | JList l => Ok (existsb (fun x => py_eq x (JStr k)) l)
  | JStr s => Ok (str_contains k s)
  | JNull | JBool _ | JInt _ | JFloat _ => Raise TypeError
  end.

(** [v[k]] for a string [k]. *)
Definition py_getitem (v : json) (k : string) : result json :=
  match v with
  | JDict d =>
      match dict_get d k with
      | Some x => Ok x
      | None => Raise (KeyError k)
      end
  | _ => Raise TypeError
  end.

(** [v[k] = x] for a string [k]. *)
Definition py_setitem (v : json) (k : string) (x : json) : result json :=
  match v with
  | JDict d => Ok (JDict (dict_set d k x))
  | _ => Raise TypeError
  end.

(** The right operand of ["literal" + v]: only a [str] can be concatenated. *)
Definition py_str_operand (v : json) : result string :=
  match v with
  | JStr s => Ok s
  | _ => Raise TypeError
  end.

(** [int(f)] of a float: truncation towards zero. *)
Definition float_trunc (f : spec_float) : result Z :=
  match f with
  | S754_zero _ => Ok 0
  | S754_infinity _ => Raise OverflowError
  | S754_nan => Raise ValueError
  | S754_finite s m e =>
      let v := cond_Zopp s (Zpos m) in
      if 0 <=? e then Ok (v * 2 ^ e) else Ok (Z.quot v (2 ^ (- e)))
  end.

(** ** The world: globals, trace and output *)

(** Calls into the environment, in the order the program makes them.  The
    payload of [Publish] is the telemetry dictionary that
    [json.dumps(telemetry, indent = '\t')] serialises at that moment. *)
Inductive call : Type :=
  | TimeTime
  | DatetimeNow
  | CpuTemperature
  | Sleep (seconds : Z)
  | OpenLoad (file : string)
  | GetHostname
  | SocketNew
  | SockConnect (host : string) (port : Z)
  | SockGetsockname
  | SockClose
  | Connect (host : json) (port : Z)
  | Subscribe (topic qos : json)
  | LoopStart
  | IsConnected
  | Reconnect
  | Publish (topic : json) (payload : dict) (qos : json)
  | Unsubscribe (topic : json)
  | LoopStop
  | Disconnect.

Inductive indent : Type :=
  | Tab
  | Spaces (n : nat).

(** The pieces of a printed line: a literal, [str(v)] of a value, [str(o)] of
    an opaque object, [str(e)] of an exception, [json.dumps(v, indent)]. *)
Inductive piece : Type :=
  | Lit (s : string)
  | StrOf (v : json)
  | StrObj (name : string)
  | StrExn (e : exn)
  | Dumps (i : indent) (v : json).

Definition line : Type := list piece.

Record World : Type := mkWorld {
  configuration : json;
  telemetry : dict;
  config_file_name : string;
  last_publish : Z;
  trace : list call;
  stdout : list line
}.

(** The module-level initialisation, lines 18 to 23: [mac] is the formatted
    result of [uuid.getnode()]. *)
Definition initial_world (mac : string) : World :=
  {| configuration := JDict [];
     telemetry := [("macAddress", JStr mac)];
     config_file_name := "config.json";
     last_publish := 0;
     trace := [];
     stdout := [] |}.

Definition set_configuration (c : json) (w : World) : World :=
  mkWorld c (telemetry w) (config_file_name w) (last_publish w) (trace w)
    (stdout w).

Definition set_telemetry (t : dict) (w : World) : World :=
  mkWorld (configuration w) t (config_file_name w) (last_publish w) (trace w)
    (stdout w).

Definition set_config_file_name (f : string) (w : World) : World :=
  mkWorld (configuration w) (telemetry w) f (last_publish w) (trace w)
    (stdout w).

Definition set_last_publish (t : Z) (w : World) : World :=
  mkWorld (configuration w) (telemetry w) (config_file_name w) t (trace w)
    (stdout w).

Definition record_call (c : call) (w : World) : World :=
  mkWorld (configuration w) (telemetry w) (config_file_name w)
    (last_publish w) (trace w ++ [c]) (stdout w).

Definition record_line (l : line) (w : World) : World :=
  mkWorld (configuration w) (telemetry w) (config_file_name w)
    (last_publish w) (trace w) (stdout w ++ [l]).

(** ** The environment *)

(** The answer of the environment to the call made when [n] calls have been
    made before it.  A call that can block or fail answers with a [result];
    a [KeyboardInterrupt] reaches the program as the answer of such a
    call. *)
Record Env : Type := mkEnv {
  env_time : nat -> Z;                         (* round(time.time()) *)
  env_strftime : nat -> string;                (* datetime.now().strftime *)
  env_cpu_temp : nat -> result spec_float;     (* CPUTemperature().temperature *)
  env_effect : nat -> call -> result unit;     (* calls whose value is unused *)
  env_is_connected : nat -> result bool;       (* client.is_connected() *)
  env_subscribe : nat -> call -> result Z;     (* client.subscribe(..)[0] *)
  env_getsockname : nat -> result string;      (* sock.getsockname()[0] *)
  env_gethostname : nat -> result string;      (* socket.gethostname() *)
  env_load : nat -> string -> result json;     (* open + json.load *)
  env_int_of_str : string -> option Z          (* int(s) of a str *)
}.

(** ** The monad *)

Definition M (A : Type) : Type := World -> result A * World.

Definition ret {A} (a : A) : M A := fun w => (Ok a, w).

Definition raise {A} (e : exn) : M A := fun w => (Raise e, w).

Definition bind {A B} (m : M A) (k : A -> M B) : M B :=
  fun w =>
    match m w with
    | (Ok a, w') => k a w'
    | (Raise e, w') => (Raise e, w')
    end.

Notation "x <- m ;; k" := (bind m (fun x => k))
  (at level 61, m at next level, right associativity).
Notation "m ;;; k" := (bind m (fun _ => k))
  (at level 61, right associativity).

(** A pure Python operation that may raise. *)
Definition lift {A} (r : result A) : M A := fun w => (r, w).

(** [try: m except ...: h]: [h e] is the handler whose clause matches [e],
    if one does.  An exception raised by the handler is not caught. *)
Definition try_except {A} (m : M A) (h : exn -> option (M A)) : M A :=
  fun w =>
    match m w with
    | (Ok a, w') => (Ok a, w')
    | (Raise e, w') =>
        match h e with
        | Some handler => handler w'
        | None => (Raise e, w')
        end
    end.

(** [try: m finally: f]. *)
Definition try_finally {A} (m : M A) (f : M unit) : M A :=
  fun w =>
    match m w with
    | (r, w') =>
        match f w' with
        | (Ok _, w'') => (r, w'')
        | (Raise e, w'') => (Raise e, w'')
        end
    end.

Definition get {A} (field : World -> A) : M A := fun w => (Ok (field w), w).

Definition modify (f : World -> World) : M unit := fun w => (Ok tt, f w).

Definition print (l : line) : M unit := modify (record_line l).

(** A call into the environment: it is recorded, and answered by the oracle
    at the position of the call in the trace. *)
Definition extern {A} (c : call) (answer : nat -> result A) : M A :=
  fun w => (answer (List.length (trace w)), record_call c w).

Definition dq : string := String (ascii_of_nat 34) EmptyString.
Definition nl : string := String (ascii_of_nat 10) EmptyString.
Definition tab : string := String (ascii_of_nat 9) EmptyString.

Definition loopback : string := "127.0.0.1".

(** ** The program *)

(** The payload of an inbound MQTT message, as line 45 sees it:
    [msg.payload.decode('utf-8')] fails, or [json.loads] fails, or a value
    is decoded. *)
Inductive payload : Type :=
  | NotUtf8
  | NotJson
  | Parsed (message : json).

Inductive flow : Type :=
  | Next
  | Break.

Inductive run : Type :=
  | Running                     (* the loop has not ended within the fuel *)
  | Returned.                   (* [main] has returned *)

Section Program.
Variable E : Env.

(** [int(v)]. *)
Definition py_int (v : json) : result Z :=
  match v with
  | JBool b => Ok (Z_of_bool b)
  | JInt z => Ok z
  | JFloat f => float_trunc f
  | JStr s =>
      match env_int_of_str E s with
      | Some z => Ok z
      | None => Raise ValueError
      end
  | JNull | JList _ | JDict _ => Raise TypeError
  end.

(** Lines 26 to 32. *)
Definition on_connect (result : Z) : M unit :=
  (if negb (result =? 0)
   then print [Lit "Bad connection, returned code: "; Lit " ";
               StrOf (JInt result)]
   else ret tt) ;;;
  if result =? 2112
  then print [StrObj "con_client"] ;;;
       print [StrObj "userdata"] ;;;
       print [StrObj "flags"]
  else ret tt.

(** Lines 82 to 93. *)
Definition get_ip : M string :=
  extern SocketNew (fun n => env_effect E n SocketNew) ;;;
  try_finally
    (try_except
       (extern (SockConnect "8.8.8.8" 80)
          (fun n => env_effect E n (SockConnect "8.8.8.8" 80)) ;;;
        extern SockGetsockname (env_getsockname E))
       (fun e =>
          match e with
          | InterruptedError => Some (ret loopback)
          | _ => if is_OSError e then Some (ret loopback) else None
          end))
    (modify (record_call SockClose)).

(** Lines 96 to 98. *)
Definition epoch_time : M Z :=
  extern TimeTime (fun n => Ok (env_time E n)).

(** Lines 101 to 103. *)
Definition get_timestamp : M string :=
  extern DatetimeNow (fun n => Ok (env_strftime E n)).

(** [configuration[k]]. *)
Definition config (k : string) : M json :=
  c <- get configuration ;; lift (py_getitem c k).

(** [telemetry[k] = v]. *)
Definition set_telemetry_item (k : string) (v : json) : M unit :=
  modify (fun w => set_telemetry (dict_set (telemetry w) k v) w).

(** Lines 106 to 110. *)
Definition publish_telemetry : M unit :=
  ts <- get_timestamp ;;
  set_telemetry_item "timeStamp" (JStr ts) ;;;
  topic <- config "publishTopic" ;;
  body <- get telemetry ;;
  qos <- config "brokerQoS" ;;
  extern (Publish topic body qos)
    (fun n => env_effect E n (Publish topic body qos)) ;;;
  topic' <- config "publishTopic" ;;
  s <- lift (py_str_operand topic') ;;
  print [Lit ("Publishing this to '" ++ s ++ "':")] ;;;
  t <- get telemetry ;;
  print [Dumps (Spaces 3) (JDict t)].

(** Lines 113 to 114. *)
Definition poll_telemetry : M unit :=
  temp <- extern CpuTemperature (env_cpu_temp E) ;;
  set_telemetry_item "cpuTemp" (JFloat temp).

(** Lines 117 to 120. *)
Definition close_mqtt : M unit :=
  topic <- config "controlTopic" ;;
  extern (Unsubscribe topic) (fun n => env_effect E n (Unsubscribe topic)) ;;;
  extern LoopStop (fun n => env_effect E n LoopStop) ;;;
  extern Disconnect (fun n => env_effect E n Disconnect).

(** Line 45. *)
Definition json_loads (msg : payload) : M json :=
  match msg with
  | NotUtf8 | NotJson => raise ValueError
  | Parsed message => ret message
  end.

Definition recognized_commands : string :=
  "Currently recognized commands are:" ++ nl ++ tab ++ "publishTelemetry"
  ++ nl ++ tab ++ "changeTelemetryInterval"
  ++ nl ++ tab ++ "changeSeaLevelPressure"
  ++ nl ++ tab ++ "publishStatus".

(** Lines 54 to 62. *)
Definition change_telemetry_interval (message : json) : M unit :=
  old_value <- config "publishInterval" ;;
  new_value <- lift (py_getitem message "value") ;;
  changed <- (if negb (py_eq old_value new_value)
              then lift (py_gt_int new_value 4)
              else ret false) ;;
  if (changed : bool)
  then
    old <- lift (py_str_operand old_value) ;;
    print [Lit ("Old publish interval: " ++ old)] ;;;
    c <- get configuration ;;
    c' <- lift (py_setitem c "publishInterval" new_value) ;;
    modify (set_configuration c') ;;;
    now <- config "publishInterval" ;;
    new <- lift (py_str_operand now) ;;
    print [Lit ("New publish interval: " ++ new)]
  else print [Lit "Not changing the telemetry publish interval."].

(** Lines 42 to 72. *)
Definition on_message (msg : payload) : M unit :=
  message <- json_loads msg ;;
  print [Dumps Tab message] ;;;
  has_command <- lift (py_contains message "command") ;;
  if (has_command : bool)
  then
    value <- lift (py_getitem message "command") ;;
    command <- lift (py_str_operand value) ;;
    print [Lit ("Processing command " ++ dq ++ command ++ dq)] ;;;
    if String.eqb command "publishTelemetry" then
      poll_telemetry ;;;
      publish_telemetry ;;;
      now <- epoch_time ;;
      modify (set_last_publish now)
    else if String.eqb command "changeTelemetryInterval" then
      change_telemetry_interval message
    else if String.eqb command "publishStatus" then
      publish_telemetry
    else if String.eqb command "debug" then
      print [StrObj "sub_client"] ;;;
      print [StrObj "userdata"]
    else
      print [Lit ("The command " ++ dq ++ command ++ dq
                  ++ " is not recognized.")] ;;;
      print [Lit recognized_commands]
  else print [Lit "Message did not contain a command property."].

(** A string read from the configuration for a concatenation:
    ["literal" + configuration[k]]. *)
Definition config_str (k : string) : M string :=
  v <- config k ;; lift (py_str_operand v).

(** Lines 129 to 168: everything [main] does before the loop. *)
Definition startup (argv : list string) : M unit :=
  match nth_error argv 1 with
  | Some name => modify (set_config_file_name name)
  | None => ret tt
  end ;;;
  name <- get config_file_name ;;
  print [Lit ("Using " ++ name ++ " as the config file.")] ;;;
  name <- get config_file_name ;;
  loaded <- extern (OpenLoad name) (fun n => env_load E n name) ;;
  modify (set_configuration loaded) ;;;
  ip <- get_ip ;;
  set_telemetry_item "ipAddress" (JStr ip) ;;;
  host_name <- extern GetHostname (env_gethostname E) ;;
  set_telemetry_item "host" (JStr host_name) ;;;
  ts <- get_timestamp ;;
  set_telemetry_item "timeStamp" (JStr ts) ;;;
  c <- get configuration ;;
  has_notes <- lift (py_contains c "notes") ;;
  (if (has_notes : bool)
   then notes <- config "notes" ;; set_telemetry_item "notes" notes
   else ret tt) ;;;
  address <- config "brokerAddress" ;;
  set_telemetry_item "brokerAddress" address ;;;
  port <- config "brokerPort" ;;
  set_telemetry_item "brokerPort" port ;;;
  print [Lit ("Hostname: " ++ host_name)] ;;;
  t <- get telemetry ;;
  ip' <- lift (py_getitem (JDict t) "ipAddress") ;;
  ip_str <- lift (py_str_operand ip') ;;
  print [Lit ("IP address: " ++ ip_str)] ;;;
  now <- get_timestamp ;;
  print [Lit ("Current time: " ++ now)] ;;;
  address_str <- config_str "brokerAddress" ;;
  print [Lit ("Using broker address: " ++ address_str)] ;;;
  port_str <- config_str "brokerPort" ;;
  print [Lit ("Using broker port: " ++ port_str)] ;;;
  publish_topic <- config_str "publishTopic" ;;
  print [Lit ("Publishing to the telemetry topic: " ++ dq ++ publish_topic
              ++ dq)] ;;;
  control_topic <- config_str "controlTopic" ;;
  print [Lit ("Subscribing to the control topic: " ++ dq ++ control_topic
              ++ dq)] ;;;
  qos <- config "brokerQoS" ;;
  print [Lit "Publishing and subscribing using QoS: "; StrOf qos] ;;;
  interval <- config "publishInterval" ;;
  print [Lit "Waiting "; StrOf interval;
         Lit " seconds between publishes (non-blocking)."] ;;;
  host <- config "brokerAddress" ;;
  port_value <- config "brokerPort" ;;
  port_number <- lift (py_int port_value) ;;
  extern (Connect host port_number)
    (fun n => env_effect E n (Connect host port_number)) ;;;
  topic <- config "controlTopic" ;;
  qos <- config "brokerQoS" ;;
  rc <- extern (Subscribe topic qos)
          (fun n => env_subscribe E n (Subscribe topic qos)) ;;
  (if rc =? 0
   then topic_str <- config_str "controlTopic" ;;
        print [Lit ("Successfully subscribed to the control topic: " ++ dq
                    ++ topic_str ++ dq)]
   else ret tt) ;;;
  extern LoopStart (fun n => env_effect E n LoopStart).

(** Lines 170 to 178: the connection check of one loop iteration. *)
Definition check_connection : M flow :=
  connected <- extern IsConnected (env_is_connected E) ;;
  if negb connected
  then
    try_except
      (extern (Sleep 3) (fun n => env_effect E n (Sleep 3)) ;;;
       extern Reconnect (fun n => env_effect E n Reconnect) ;;;
       ret Next)
      (fun e =>
         match e with
         | TimeoutError =>
             Some (print [Lit "Timeout encountered while trying to reconnect to the MQTT broker!"] ;;;
                   close_mqtt ;;;
                   ret Break)
         | _ => None
         end)
  else ret Next.

(** Lines 179 to 184: the scheduled publish of one loop iteration. *)
Definition scheduled_publish : M unit :=
  current_time <- epoch_time ;;
  interval <- config "publishInterval" ;;
  elapsed <- lift (py_int_sub current_time interval) ;;
  last <- get last_publish ;;
  if num_gt_Z elapsed last
  then
    poll_telemetry ;;;
    publish_telemetry ;;;
    now <- epoch_time ;;
    modify (set_last_publish now)
  else ret tt.

(** Lines 170 to 184: the body of [while True]. *)
Definition loop_iteration : M flow :=
  f <- check_connection ;;
  match f with
  | Break => ret Break
  | Next => scheduled_publish ;;; ret Next
  end.

(** Lines 169 to 184: [while True], cut off after [fuel] iterations. *)
Fixpoint while_true (fuel : nat) : M run :=
  match fuel with
  | O => ret Running
  | S fuel' =>
      f <- loop_iteration ;;
      match f with
      | Break => ret Returned
      | Next => while_true fuel'
      end
  end.

(** Lines 186 to 196: the [except] clauses of [main]. *)
Definition main_handlers (e : exn) : option (M run) :=
  match e with
  | KeyboardInterrupt =>
      Some (print [Lit (nl ++ "Keyboard interrupt detected, exiting..." ++ nl)] ;;;
            close_mqtt ;;;
            ret Returned)
  | KeyError _ =>
      Some (print [Lit "Python dictionary key error: "; StrExn e] ;;;
            ret Returned)
  | ConnectionRefusedError =>
      Some (print [Lit "Connection error: "; StrExn e] ;;;
            ret Returned)
  | TimeoutError =>
      Some (print [Lit "Timeout encountered while connecting to the MQTT broker!"] ;;;
            close_mqtt ;;;
            ret Returned)
  | _ => None
  end.

(** Lines 128 to 184: the body of the [try] statement of [main]. *)
Definition main_body (argv : list string) (fuel : nat) : M run :=
  startup argv ;;; while_true fuel.

(** Lines 123 to 196. *)
Definition main (argv : list string) (fuel : nat) : M run :=
  try_except (main_body argv fuel) main_handlers.

End Program.

(** ** The rest of the program *)

(** *** The client identifier, line 22 *)

(** An upper-case hexadecimal digit. *)
Definition hex_char (d : Z) : ascii :=
  match d with
  | 0 => "0" | 1 => "1" | 2 => "2" | 3 => "3" | 4 => "4" | 5 => "5"
  | 6 => "6" | 7 => "7" | 8 => "8" | 9 => "9" | 10 => "A" | 11 => "B"
  | 12 => "C" | 13 => "D" | 14 => "E" | 15 => "F" | _ => "?"
  end%char.

(** The hexadecimal digits of [n], least significant first. *)
Fixpoint hex_rev (fuel : nat) (n : Z) : list Z :=
  match fuel with
  | O => []
  | S fuel' =>
      if n <? 16 then [n] else (n mod 16) :: hex_rev fuel' (n / 16)
  end.

(** The digits of ["%X" % n] for [n >= 0]: no leading zero, one digit for
    zero.  [n] has at most [log2 n + 1] hexadecimal digits. *)
Definition hex_digits (n : Z) : list Z :=
  rev (hex_rev (S (Z.to_nat (Z.log2 n))) n).

(** ["%012X" % n] for [n >= 0]: padded with zeros to twelve characters, and
    longer when [n] has more than twelve digits. *)
Definition format_012X (n : Z) : string :=
  string_of_list_ascii
    (repeat "0"%char (12 - List.length (hex_digits n))
     ++ map hex_char (hex_digits n)).

(** [':'.join(s[i:i + 2] for i in range(0, 12, 2))]. *)
Definition colon_pairs (s : string) : string :=
  String.concat ":"
    (map (fun i => substring i 2 s) [0; 2; 4; 6; 8; 10]%nat).

(** Line 22, for the value [node] of [uuid.getnode()]. *)
Definition format_mac (node : Z) : string := colon_pairs (format_012X node).

(** Lines 18 to 23. *)
Definition module_init (node : Z) : World := initial_world (format_mac node).

(** *** The callbacks that only print *)

(** Lines 35 to 39. *)
Definition on_disconnect (result : Z) : M unit :=
  print [Lit "Disconnected from the broker!  Reason: "; StrOf (JInt result)] ;;;
  if result =? 2112
  then print [StrObj "dc_client"] ;;;
       print [StrObj "userdata"]
  else ret tt.

(** The literal [2112.2112] of line 76: the binary64 nearest to
    21122112 / 10000. *)
Definition f2112_2112 : spec_float :=
  Eval vm_compute in
    SFdiv 53 1024 (binary_normalize 53 1024 21122112 0 false)
      (binary_normalize 53 1024 10000 0 false).

(** Lines 75 to 79; [result] is the message identifier. *)
Definition on_publish (result : Z) : M unit :=
  if py_eq (JInt result) (JFloat f2112_2112)
  then print [StrObj "pub_client"] ;;;
       print [StrObj "userdata"] ;;;
       print [StrOf (JInt result)]
  else ret tt.

(** ** Reasoning about computations *)

Definition outcome {A} (m : M A) (w : World) : result A := fst (m w).
Definition after {A} (m : M A) (w : World) : World := snd (m w).

(** The calls a computation makes when started in [w]. *)
Definition calls_of {A} (m : M A) (w : World) : list call :=
  skipn (List.length (trace w)) (trace (after m w)).

(** A relation between the world before and the world after that is closed
    under sequencing. *)
Class Step (R : World -> World -> Prop) : Prop := {
  step_refl : forall w, R w w;
  step_trans : forall a b c, R a b -> R b c -> R a c
}.

Definition respects (R : World -> World -> Prop) {A} (m : M A) : Prop :=
  forall w, R w (after m w).

(** [f] has the same value before and after. *)
Definition same {B} (f : World -> B) : World -> World -> Prop :=
  fun w w' => f w' = f w.

(** The trace has grown by calls that all satisfy [ok]. *)
Definition grows (ok : call -> bool) : World -> World -> Prop :=
  fun w w' => exists l, trace w' = (trace w ++ l)%list /\ forallb ok l = true.

Definition is_socket_call (c : call) : bool :=
  match c with
  | SocketNew | SockClose => true
  | _ => false
  end.

Definition is_publish (c : call) : bool :=
  match c with
  | Publish _ _ _ => true
  | _ => false
  end.

Definition is_subscribe (c : call) : bool :=
  match c with
  | Subscribe _ _ => true
  | _ => false
  end.

(** The calls of [close_mqtt]. *)
Definition is_close (c : call) : bool :=
  match c with
  | Unsubscribe _ | LoopStop | Disconnect => true
  | _ => false
  end.

(** ** Vocabulary of the theorems *)

(** *** Messages *)

Definition command (name : string) : payload :=
  Parsed (JDict [("command", JStr name)]).

Definition change_interval (value : Z) : payload :=
  Parsed (JDict [("command", JStr "changeTelemetryInterval");
                 ("value", JInt value)]).

(** A payload that is not parseable, or is not an object with a [command]
    field. *)
Definition malformed (msg : payload) : Prop :=
  match msg with
  | Parsed (JDict d) => dict_mem d "command" = false
  | _ => True
  end.

(** The configuration [c'] is [c] with [publishInterval] overwritten by a
    [changeTelemetryInterval] command whose value passed the test of line 57
    against the current interval. *)
Definition validated_interval_update (msg : payload) (c c' : json) : Prop :=
  exists message old new,
    msg = Parsed message
    /\ py_getitem message "command" = Ok (JStr "changeTelemetryInterval")
    /\ py_getitem message "value" = Ok new
    /\ py_getitem c "publishInterval" = Ok old
    /\ py_eq old new = false
    /\ py_gt_int new 4 = Ok true
    /\ py_setitem c "publishInterval" new = Ok c'.

(** *** The IP address *)

(** The outcome of the UDP probe of lines 85 and 86, made as the calls
    number [n] and [n + 1]: the address of the socket, or the exception
    raised by [connect] or by [getsockname]. *)
Definition udp_probe (E : Env) (n : nat) : result string :=
  match env_effect E n (SockConnect "8.8.8.8" 80) with
  | Ok _ => env_getsockname E (S n)
  | Raise e => Raise e
  end.

(** *** The supervising loop *)

(** The telemetry record after a sampling pass: [cpuTemp] is the reading
    [temp] and [timeStamp] the answer of the clock at call number [n]. *)
Definition sampled_record (E : Env) (t : dict) (temp : spec_float) (n : nat)
  : dict :=
  dict_set (dict_set t "cpuTemp" (JFloat temp)) "timeStamp"
    (JStr (env_strftime E n)).

(** The calls of a connection check that lets the iteration go on: the
    client is connected, or it is reconnected after the sleep. *)
Definition pass_calls (connected : bool) : list call :=
  if connected then [IsConnected] else [IsConnected; Sleep 3; Reconnect].

(** The world after such a connection check. *)
Definition passed (connected : bool) (w : World) : World :=
  if connected then record_call IsConnected w
  else record_call Reconnect (record_call (Sleep 3) (record_call IsConnected w)).

(** The environment lets the connection check that starts at call number [n]
    go on, the client being [connected] or not. *)
Definition passes_check (E : Env) (n : nat) (connected : bool) : Prop :=
  env_is_connected E n = Ok connected
  /\ (connected = false ->
      env_effect E (n + 1) (Sleep 3) = Ok tt
      /\ env_effect E (n + 2) Reconnect = Ok tt).

(** The calls of a run of iterations that only check the connection and
    read the clock; [s] tells, for each, whether the client was connected. *)
Fixpoint waiting_calls (s : list bool) : list call :=
  match s with
  | [] => []
  | b :: s' => (pass_calls b ++ TimeTime :: waiting_calls s')%list
  end.

(** The world after these iterations. *)
Fixpoint waited (s : list bool) (w : World) : World :=
  match s with
  | [] => w
  | b :: s' => waited s' (record_call TimeTime (passed b w))
  end.

(** From call number [n] on, the environment answers a run of iterations
    [s] that pass the connection check and read a time of at most
    [limit]. *)
Fixpoint waits (E : Env) (limit : Z) (n : nat) (s : list bool) : Prop :=
  match s with
  | [] => True
  | b :: s' =>
      passes_check E n b
      /\ env_time E (n + List.length (pass_calls b)) <= limit
      /\ waits E limit (n + List.length (pass_calls b) + 1) s'
  end.

(** The call number of the clock reading of line 179 in the iteration that
    follows the iterations [s], its own connection check being [b]. *)
Definition due (w : World) (s : list bool) (b : bool) : nat :=
  List.length (trace w) + List.length (waiting_calls s)
  + List.length (pass_calls b).

(** *** Closing the broker session *)

(** The three calls of one run of [close_mqtt] on the control topic [t]. *)
Definition close_calls (t : json) : list call :=
  [Unsubscribe t; LoopStop; Disconnect].

(** Between [w] and [w'] the calls of [close_mqtt] that were made are [cl]. *)
Definition closing (w w' : World) (cl : list call) : Prop :=
  exists l, trace w' = (trace w ++ l)%list /\ filter is_close l = cl.

(** The calls of [close_mqtt] themselves do not raise. *)
Definition closes_politely (E : Env) : Prop :=
  forall n c, is_close c = true -> env_effect E n c = Ok tt.

(** *** Startup *)

(** The configuration file named on the command line, or the default. *)
Definition chosen_file (argv : list string) (w : World) : string :=
  match nth_error argv 1 with
  | Some name => name
  | None => config_file_name w
  end.

(** The telemetry record once the startup sequence has filled in the static
    fields. *)
Definition static_record
  (t c : dict) (ip host stamp : string) (address port : json) : dict :=
  let t1 := dict_set (dict_set (dict_set t "ipAddress" (JStr ip))
                        "host" (JStr host)) "timeStamp" (JStr stamp) in
  let t2 := match dict_get c "notes" with
            | Some notes => dict_set t1 "notes" notes
            | None => t1
            end in
  dict_set (dict_set t2 "brokerAddress" address) "brokerPort" port.

(** ** Statements of the specification that the code does not meet *)

(** C2: the message handler changes neither the configuration nor
    [last_publish], makes no call to the client, and returns. *)
Definition dropped_without_harm (E : Env) (msg : payload) (w : World) : Prop :=
  configuration (after (on_message E msg) w) = configuration w
  /\ last_publish (after (on_message E msg) w) = last_publish w
  /\ trace (after (on_message E msg) w) = trace w
  /\ outcome (on_message E msg) w = Ok tt.

(** C3: when the scheduled path publishes, [last_publish] becomes the
    current time that was compared with the interval, the reading of
    line 179. *)
Definition stamps_compared_time (E : Env) (w : World) : Prop :=
  existsb is_publish (calls_of (scheduled_publish E) w) = true ->
  last_publish (after (scheduled_publish E) w)
  = env_time E (List.length (trace w)).

(** C4: a configuration record as section 6 of the specification describes
    it, with an integer broker port ... *)
Definition contract_valid (c : json) : Prop :=
  exists address publish_topic control_topic port qos interval,
    py_getitem c "brokerAddress" = Ok (JStr address)
    /\ py_getitem c "brokerPort" = Ok (JInt port)
    /\ py_getitem c "brokerQoS" = Ok (JInt qos)
    /\ 0 <= qos <= 2
    /\ py_getitem c "publishTopic" = Ok (JStr publish_topic)
    /\ py_getitem c "controlTopic" = Ok (JStr control_topic)
    /\ py_getitem c "publishInterval" = Ok (JInt interval)
    /\ interval > 4.

(** ... with which the startup sequence ends without raising. *)
Definition starts_up (E : Env) (argv : list string) (w : World) : Prop :=
  outcome (startup E argv) w = Ok tt.

(** C5: whenever [main] has ended, by a return or by an exception,
    [close_mqtt] has run exactly once. *)
Definition closed_exactly_once
  (E : Env) (argv : list string) (fuel : nat) (w : World) : Prop :=
  outcome (main E argv fuel) w <> Ok Running ->
  exists t, filter is_close (calls_of (main E argv fuel) w) = close_calls t.

(** C7: whenever the loop has made a [reconnect] call that succeeded, a
    [subscribe] call follows it, at the latest some iterations later. *)
Definition resubscribes_after_reconnect (E : Env) (w : World) : Prop :=
  forall fuel before rest,
    calls_of (while_true E fuel) w = (before ++ Reconnect :: rest)%list ->
    env_effect E (List.length (trace w) + List.length before) Reconnect
    = Ok tt ->
    exists fuel' rest',
      calls_of (while_true E fuel') w = (before ++ Reconnect :: rest')%list
      /\ existsb is_subscribe rest' = true.

(** C8: an unknown command is reported with the list of recognized
    commands. *)
Definition reported_unknown (E : Env) (name : string) (w : World) : Prop :=
  exists before,
    stdout (after (on_message E (command name)) w)
    = (before ++ [[Lit ("The command " ++ dq ++ name ++ dq
                        ++ " is not recognized.")];
                  [Lit recognized_commands]])%list.

(** C10: [get_ip] returns a string. *)
Definition resolves (E : Env) (w : World) : Prop :=
  exists ip, outcome (get_ip E) w = Ok ip.

(** ** Sample inputs *)

(** 42.0 as a binary64. *)
Definition temp42 : spec_float := S754_finite false 5910974510923776 (-47).

(** A configuration file as the program reads it. *)
Definition sample_configuration : json :=
  JDict [("brokerAddress", JStr "10.0.0.2"); ("brokerPort", JStr "1883");
         ("brokerQoS", JInt 1); ("publishTopic", JStr "stats/pi");
         ("controlTopic", JStr "control/pi"); ("publishInterval", JInt 10)].

(** The same configuration with the broker port written as a number. *)
Definition contract_configuration : json :=
  JDict [("brokerAddress", JStr "10.0.0.2"); ("brokerPort", JInt 1883);
         ("brokerQoS", JInt 1); ("publishTopic", JStr "stats/pi");
         ("controlTopic", JStr "control/pi"); ("publishInterval", JInt 10)].

(** An environment in which every call succeeds, the client is connected and
    the clock advances by one second per call. *)
Definition quiet_env : Env :=
  {| env_time := fun n => 1000 + Z.of_nat n;
     env_strftime := fun _ => "2024-05-01 12:00:00";
     env_cpu_temp := fun _ => Ok temp42;
     env_effect := fun _ _ => Ok tt;
     env_is_connected := fun _ => Ok true;
     env_subscribe := fun _ _ => Ok 0;
     env_getsockname := fun _ => Ok "192.168.1.7";
     env_gethostname := fun _ => Ok "pi";
     env_load := fun _ _ => Ok sample_configuration;
     env_int_of_str := fun s => if String.eqb s "1883" then Some 1883 else None |}.

(** An environment with one oracle replaced. *)
Definition with_effect (f : nat -> call -> result unit) (E : Env) : Env :=
  mkEnv (env_time E) (env_strftime E) (env_cpu_temp E) f (env_is_connected E)
    (env_subscribe E) (env_getsockname E) (env_gethostname E) (env_load E)
    (env_int_of_str E).

Definition with_is_connected (f : nat -> result bool) (E : Env) : Env :=
  mkEnv (env_time E) (env_strftime E) (env_cpu_temp E) (env_effect E) f
    (env_subscribe E) (env_getsockname E) (env_gethostname E) (env_load E)
    (env_int_of_str E).

Definition with_load (f : nat -> string -> result json) (E : Env) : Env :=
  mkEnv (env_time E) (env_strftime E) (env_cpu_temp E) (env_effect E)
    (env_is_connected E) (env_subscribe E) (env_getsockname E)
    (env_gethostname E) f (env_int_of_str E).

(** No network: [connect] on the probe socket raises [OSError]. *)
Definition offline_env : Env :=
  with_effect (fun _ c => match c with
                          | SockConnect _ _ => Raise OSError
                          | _ => Ok tt
                          end) quiet_env.

(** The first connection check finds the client disconnected and the
    reconnect succeeds. *)
Definition dropped_env : Env :=
  with_is_connected (fun n => Ok (negb (Nat.eqb n 0))) quiet_env.

(** The second connection check finds the client disconnected and the
    reconnect succeeds. *)
Definition dropped_later_env : Env :=
  with_is_connected (fun n => Ok (negb (Nat.eqb n 2))) quiet_env.

(** The operating system refuses to create the probe socket. *)
Definition no_socket_env : Env :=
  with_effect (fun _ c => match c with
                          | SocketNew => Raise OSError
                          | _ => Ok tt
                          end) quiet_env.

(** The user interrupts the probe. *)
Definition interrupted_probe_env : Env :=
  with_effect (fun _ c => match c with
                          | SockConnect _ _ => Raise KeyboardInterrupt
                          | _ => Ok tt
                          end) quiet_env.

(** Every [publish] call raises [OSError]. *)
Definition failing_publish_env : Env :=
  with_effect (fun _ c => match c with
                          | Publish _ _ _ => Raise OSError
                          | _ => Ok tt
                          end) quiet_env.

(** The broker refuses the connection. *)
Definition refusing_env : Env :=
  with_effect (fun _ c => match c with
                          | Connect _ _ => Raise ConnectionRefusedError
                          | _ => Ok tt
                          end) quiet_env.

(** The client is disconnected and the user interrupts the first [sleep]. *)
Definition interrupted_env : Env :=
  with_effect (fun _ c => match c with
                          | Sleep _ => Raise KeyboardInterrupt
                          | _ => Ok tt
                          end)
    (with_is_connected (fun _ => Ok false) quiet_env).

(** The configuration file follows the contract of the specification. *)
Definition contract_env : Env :=
  with_load (fun _ _ => Ok contract_configuration) quiet_env.

(** The world after the module-level initialisation. *)
Definition fresh_world : World := initial_world "B8:27:EB:12:34:56".

(** A world in which the sample configuration has been loaded. *)
Definition sample_world : World :=
  set_configuration sample_configuration fresh_world.

(** A world in which the last publish happened at second 994. *)
Definition waiting_world : World := set_last_publish 994 sample_world.

(** A world whose configuration has its interval written as a string. *)
Definition string_interval_world : World :=
  set_configuration (JDict [("publishInterval", JStr "10")]) fresh_world.

(** *** The client identifier *)







(** *** Relations between the world before and after *)

(** Every field of the telemetry record other than [cpuTemp] and
    [timeStamp] reads as before. *)
Definition same_identity : World -> World -> Prop :=
  fun w w' =>
    forall k, k <> "cpuTemp" -> k <> "timeStamp" ->
              dict_get (telemetry w') k = dict_get (telemetry w) k.

(** In the list of calls [l], every [reconnect] comes right after a
    [sleep] of three seconds; [slept] says whether such a [sleep] comes
    right before [l]. *)
Fixpoint paced (slept : bool) (l : list call) : bool :=
  match l with
  | [] => true
  | Reconnect :: l' => slept && paced false l'
  | Sleep seconds :: l' => paced (seconds =? 3) l'
  | _ :: l' => paced false l'
  end.

(** The trace has grown by a paced list of calls. *)
Definition grows_paced : World -> World -> Prop :=
  fun w w' => exists l, trace w' = (trace w ++ l)%list /\ paced false l = true.

(** A [publish] call carries the topic and the quality of service of the
    configuration [c]. *)
Definition as_configured (c : json) (k : call) : Prop :=
  match k with
  | Publish topic _ qos =>
      py_getitem c "publishTopic" = Ok topic
      /\ py_getitem c "brokerQoS" = Ok qos
  | _ => True
  end.

(** The configuration has kept all its fields but [publishInterval], and
    the calls made carry the topic and quality of service it holds. *)
Definition publishes_as_configured : World -> World -> Prop :=
  fun w w' =>
    (forall k, k <> "publishInterval" ->
               py_getitem (configuration w') k = py_getitem (configuration w) k)
    /\ exists l, trace w' = (trace w ++ l)%list
                 /\ Forall (as_configured (configuration w)) l.

(** The calls the message handler may make: reading the sensor and the
    clock, and publishing. *)
Definition is_handler_call (c : call) : bool :=
  match c with
  | CpuTemperature | DatetimeNow | TimeTime | Publish _ _ _ => true
  | _ => false
  end.

(** No [sleep] and no [reconnect] ever raises [TimeoutError]. *)
Definition never_times_out (E : Env) : Prop :=
  forall n,
    env_effect E n (Sleep 3) <> Raise TimeoutError
    /\ env_effect E n Reconnect <> Raise TimeoutError.

(** The run of [m] from [w] has returned, its last two calls being a
    [publish] that the environment answered and the clock reading that
    [last_publish] now holds. *)
Definition recorded_a_publish (E : Env) (m : M unit) (w : World) : Prop :=
  outcome m w = Ok tt
  /\ exists before topic body qos,
       calls_of m w = (before ++ [Publish topic body qos; TimeTime])%list
       /\ env_effect E (List.length (trace w) + List.length before)
            (Publish topic body qos) = Ok tt
       /\ last_publish (after m w)
          = env_time E (List.length (trace w) + List.length before + 1).

(** ** Sequencing rules *)

Section Respects.
Context (R : World -> World -> Prop) `{Step R}.

Lemma respects_ret {A} (a : A) : respects R (ret a).
Proof. intro w. apply step_refl. Qed.

Lemma respects_raise {A} (e : exn) : respects R (@raise A e).
Proof. intro w. apply step_refl. Qed.

Lemma respects_lift {A} (r : result A) : respects R (lift r).
Proof. intro w. apply step_refl. Qed.

Lemma respects_get {A} (f : World -> A) : respects R (get f).
Proof. intro w. apply step_refl. Qed.

Lemma respects_modify (g : World -> World) :
  (forall w, R w (g w)) -> respects R (modify g).
Proof. intros Hg w. apply Hg. Qed.

Lemma respects_extern {A} (c : call) (answer : nat -> result A) :
  (forall w, R w (record_call c w)) -> respects R (extern c answer).
Proof. intros Hc w. apply Hc. Qed.

Lemma respects_bind {A B} (m : M A) (k : A -> M B) :
  respects R m -> (forall a, respects R (k a)) -> respects R (bind m k).
Proof.
  intros Hm Hk w. unfold after, bind.
  specialize (Hm w). unfold after in Hm.
  destruct (m w) as [[a | e] w1]; simpl in *.
  - eapply step_trans; [exact Hm | apply Hk].
  - exact Hm.
Qed.

Lemma respects_try_except {A} (m : M A) (h : exn -> option (M A)) :
  respects R m ->
  (forall e handler, h e = Some handler -> respects R handler) ->
  respects R (try_except m h).
Proof.
  intros Hm Hh w. unfold after, try_except.
  specialize (Hm w). unfold after in Hm.
  destruct (m w) as [[a | e] w1]; simpl in *; [exact Hm |].
  destruct (h e) as [handler |] eqn:He; simpl; [| exact Hm].
  eapply step_trans; [exact Hm | eapply Hh; eassumption].
Qed.

Lemma respects_try_finally {A} (m : M A) (f : M unit) :
  respects R m -> respects R f -> respects R (try_finally m f).
Proof.
  intros Hm Hf w. unfold after, try_finally.
  specialize (Hm w). unfold after in Hm.
  destruct (m w) as [r w1]; simpl in *.
  specialize (Hf w1). unfold after in Hf.
  destruct (f w1) as [[u | e] w2]; simpl in *;
    eapply step_trans; eassumption.
Qed.
End Respects.

(** Walks through a program built from the combinators above; what is left
    are the calls, prints and assignments on which the relation depends. *)
Ltac walk :=
  repeat first
    [ solve [apply respects_ret; typeclasses eauto]
    | solve [apply respects_raise; typeclasses eauto]
    | solve [apply respects_lift; typeclasses eauto]
    | solve [apply respects_get; typeclasses eauto]
    | apply respects_bind; [typeclasses eauto | | intro]
    | apply respects_try_finally; [typeclasses eauto | |]
    | apply respects_try_except;
      [ typeclasses eauto |
      | let e := fresh "e" in
        let hd := fresh "handler" in
        let Hh := fresh "Hh" in
        intros e hd Hh; destruct e; simpl in Hh;
        try discriminate Hh; try (injection Hh as <-) ]
    | match goal with
      | |- respects _ (if ?b then _ else _) => destruct b
      | |- respects _ (match ?x with _ => _ end) => destruct x
      end ].

#[export] Instance same_Step {B} (f : World -> B) : Step (same f).
Proof.
  split; unfold same; [reflexivity | intros a b c Hab Hbc; congruence].
Qed.

#[export] Instance grows_Step (ok : call -> bool) : Step (grows ok).
Proof.
  split; unfold grows.
  - intro w. exists []. now rewrite app_nil_r.
  - intros a b c [l1 [H1 F1]] [l2 [H2 F2]]. exists (l1 ++ l2)%list. split.
    + now rewrite H2, H1, app_assoc.
    + rewrite forallb_app, F1, F2. reflexivity.
Qed.

Lemma grows_record_call (ok : call -> bool) (c : call) (w : World) :
  ok c = true -> grows ok w (record_call c w).
Proof.
  intro Hc. exists [c]. simpl. now rewrite Hc.
Qed.

Lemma grows_calls_of (ok : call -> bool) {A} (m : M A) (w : World) :
  grows ok w (after m w) ->
  trace (after m w) = (trace w ++ calls_of m w)%list
  /\ forallb ok (calls_of m w) = true.
Proof.
  intros [l [Hl Fl]]. unfold calls_of. rewrite Hl.
  rewrite skipn_app, skipn_all, Nat.sub_diag. simpl. auto.
Qed.

(** ** The message handler *)

Ltac run_handler :=
  unfold outcome, after, on_message, change_telemetry_interval,
    publish_telemetry, poll_telemetry, get_timestamp, epoch_time, config,
    set_telemetry_item, json_loads, bind, ret, raise, lift, get, print,
    modify, extern;
  simpl; unfold dict_mem.

Section OnMessage.
Variable E : Env.

(** C1.  A [changeTelemetryInterval] command with an integer value, received
    while the interval is an integer, never changes the configuration: a
    value that is at most 4 or equals the current interval is refused with a
    printed line, and a value above 4 that differs from the current interval
    makes line 58 raise [TypeError] before the assignment of line 59. *)
Theorem change_interval_never_applied (w : World) (c d : dict) (old new : Z) :
  configuration w = JDict c ->
  dict_get c "publishInterval" = Some (JInt old) ->
  dict_get d "command" = Some (JStr "changeTelemetryInterval") ->
  dict_get d "value" = Some (JInt new) ->
  configuration (after (on_message E (Parsed (JDict d))) w) = configuration w
  /\ (new > 4 /\ new <> old ->
      outcome (on_message E (Parsed (JDict d))) w = Raise TypeError)
  /\ (new <= 4 \/ new = old ->
      outcome (on_message E (Parsed (JDict d))) w = Ok tt
      /\ last_publish (after (on_message E (Parsed (JDict d))) w)
         = last_publish w
      /\ telemetry (after (on_message E (Parsed (JDict d))) w) = telemetry w
      /\ trace (after (on_message E (Parsed (JDict d))) w) = trace w).
Proof.
  intros Hc Hold Hcmd Hval.
  run_handler. rewrite Hcmd. simpl. rewrite Hc. simpl. rewrite Hold, Hval. simpl.
  destruct (old =? new) eqn:Heq; simpl.
  - apply Z.eqb_eq in Heq.
    split; [now rewrite Hc |]. split; [intros [_ Hne]; congruence | auto].
  - apply Z.eqb_neq in Heq. unfold py_gt_int. simpl.
    destruct (new >? 4) eqn:Hgt; simpl.
    + split; [now rewrite Hc |]. split; [reflexivity |].
      apply Z.gtb_gt in Hgt. intros [Hle | Hsame]; [lia | congruence].
    + split; [now rewrite Hc |]. split; [| auto].
      intros [Hgt' _]. apply Z.gtb_gt in Hgt'. congruence.
Qed.

(** C2, as the code has it.  A malformed payload changes neither the
    configuration, nor [last_publish], nor the telemetry record, and makes no
    call to the client.  An object without a [command] field is reported and
    the handler returns; a payload that cannot be decoded makes line 45 raise
    out of the handler, which has no [try] statement. *)
Theorem malformed_payload_no_mutation (w : World) (msg : payload) :
  malformed msg ->
  configuration (after (on_message E msg) w) = configuration w
  /\ last_publish (after (on_message E msg) w) = last_publish w
  /\ telemetry (after (on_message E msg) w) = telemetry w
  /\ trace (after (on_message E msg) w) = trace w
  /\ (forall d, msg = Parsed (JDict d) -> outcome (on_message E msg) w = Ok tt)
  /\ (msg = NotUtf8 \/ msg = NotJson ->
      outcome (on_message E msg) w = Raise ValueError
      /\ after (on_message E msg) w = w).
Proof.
  intro Hbad.
  assert (Hno : forall j : json, ~ (Parsed j = NotUtf8 \/ Parsed j = NotJson))
    by (intros j [H | H]; discriminate).
  destruct msg as [| | j].
  - run_handler. repeat split; auto; discriminate.
  - run_handler. repeat split; auto; discriminate.
  - specialize (Hno j).
    destruct j as [| b | z | f | s | l | d]; run_handler.
    + repeat split; auto; try discriminate; try (now destruct Hno).
    + repeat split; auto; try discriminate; try (now destruct Hno).
    + repeat split; auto; try discriminate; try (now destruct Hno).
    + repeat split; auto; try discriminate; try (now destruct Hno).
    + match goal with |- context [if ?b then _ else _] => destruct b end;
        simpl; repeat split; auto; try discriminate; try (now destruct Hno).
    + match goal with |- context [if ?b then _ else _] => destruct b end;
        simpl; repeat split; auto; try discriminate; try (now destruct Hno).
    + simpl in Hbad. unfold dict_mem in Hbad.
      destruct (dict_get d "command"); [discriminate |]. simpl.
      repeat split; auto; try (now destruct Hno).
Qed.

Lemma dict_get_set_other {A} (d : list (string * A)) (k k' : string) (v : A) :
  k <> k' -> dict_get (dict_set d k' v) k = dict_get d k.
Proof.
  intro Hne. induction d as [| [k0 v0] d IH]; simpl.
  - destruct (String.eqb k' k) eqn:Hk; [| reflexivity].
    apply String.eqb_eq in Hk. congruence.
  - destruct (String.eqb k0 k') eqn:Hk0; simpl.
    + apply String.eqb_eq in Hk0. subst k0.
      destruct (String.eqb k' k) eqn:Hk; [| reflexivity].
      apply String.eqb_eq in Hk. congruence.
    + destruct (String.eqb k0 k); [reflexivity | exact IH].
Qed.

Lemma dict_get_set_same {A} (d : list (string * A)) (k : string) (v : A) :
  dict_get (dict_set d k v) k = Some v.
Proof.
  induction d as [| [k0 v0] d IH]; simpl.
  - now rewrite String.eqb_refl.
  - destruct (String.eqb k0 k) eqn:Hk0; simpl; rewrite Hk0; auto.
Qed.

(** C6.  A [publishStatus] command leaves [last_publish] and the
    configuration unchanged, does not read the sensor, and hands to
    [client.publish] the telemetry record it held, of which only the
    [timeStamp] field has been refreshed. *)
Theorem publish_status_does_not_resample
  (w : World) (c d : dict) (topic qos : json) :
  dict_get d "command" = Some (JStr "publishStatus") ->
  configuration w = JDict c ->
  dict_get c "publishTopic" = Some topic ->
  dict_get c "brokerQoS" = Some qos ->
  let w' := after (on_message E (Parsed (JDict d))) w in
  let held :=
    dict_set (telemetry w) "timeStamp"
      (JStr (env_strftime E (List.length (trace w)))) in
  last_publish w' = last_publish w
  /\ configuration w' = configuration w
  /\ telemetry w' = held
  /\ (forall k, k <> "timeStamp" ->
      dict_get (telemetry w') k = dict_get (telemetry w) k)
  /\ trace w' = (trace w ++ [DatetimeNow; Publish topic held qos])%list.
Proof.
  intros Hcmd Hc Htopic Hqos. run_handler. rewrite Hcmd. simpl.
  rewrite Hc. simpl. rewrite Htopic, Hqos. simpl.
  assert (Hframe : forall k, k <> "timeStamp" ->
            dict_get (dict_set (telemetry w) "timeStamp"
                        (JStr (env_strftime E (List.length (trace w))))) k
            = dict_get (telemetry w) k)
    by (intros k Hk; now apply dict_get_set_other).
  destruct (env_effect E _ _) as [[] | e]; simpl.
  - destruct (py_str_operand topic); simpl;
      rewrite <- app_assoc; simpl; rewrite ?Hc; auto.
  - rewrite <- app_assoc; simpl; rewrite ?Hc; auto.
Qed.

(** C8, as the code has it.  A message whose command is a string other than
    [publishTelemetry], [changeTelemetryInterval] and [publishStatus] changes
    nothing but the output.  [debug] has a branch of its own, which prints
    the client and the user data; any other name is printed as not
    recognized, followed by the list of recognized commands. *)
Theorem unknown_command_reported (w : World) (d : dict) (name : string) :
  dict_get d "command" = Some (JStr name) ->
  name <> "publishTelemetry" ->
  name <> "changeTelemetryInterval" ->
  name <> "publishStatus" ->
  let w' := after (on_message E (Parsed (JDict d))) w in
  outcome (on_message E (Parsed (JDict d))) w = Ok tt
  /\ configuration w' = configuration w
  /\ last_publish w' = last_publish w
  /\ telemetry w' = telemetry w
  /\ trace w' = trace w
  /\ stdout w'
     = (stdout w
        ++ [Dumps Tab (JDict d)]
        :: [Lit ("Processing command " ++ dq ++ name ++ dq)]
        :: (if String.eqb name "debug"
            then [[StrObj "sub_client"]; [StrObj "userdata"]]
            else [[Lit ("The command " ++ dq ++ name ++ dq
                        ++ " is not recognized.")];
                  [Lit recognized_commands]]))%list.
Proof.
  intros Hcmd H1 H2 H3.
  apply String.eqb_neq in H1, H2, H3.
  unfold outcome, after, on_message, json_loads, bind, ret, lift, print,
    modify.
  cbn [py_contains py_getitem]. unfold dict_mem. rewrite Hcmd.
  cbn [py_str_operand]. rewrite H1, H2, H3.
  destruct (String.eqb name "debug"); cbn [fst snd record_line configuration
    last_publish telemetry trace stdout];
    rewrite <- !app_assoc; repeat split; reflexivity.
Qed.

End OnMessage.

(** *** The handler on the sample inputs *)

(** The failing input of C1: interval 10, requested value 20. *)
Lemma change_interval_never_applied_witness :
  outcome (on_message quiet_env (change_interval 20)) sample_world
  = Raise TypeError
  /\ configuration (after (on_message quiet_env (change_interval 20))
                      sample_world)
     = sample_configuration.
Proof.
  destruct (change_interval_never_applied quiet_env sample_world
              [("brokerAddress", JStr "10.0.0.2"); ("brokerPort", JStr "1883");
               ("brokerQoS", JInt 1); ("publishTopic", JStr "stats/pi");
               ("controlTopic", JStr "control/pi");
               ("publishInterval", JInt 10)]
              [("command", JStr "changeTelemetryInterval");
               ("value", JInt 20)]
              10 20 eq_refl eq_refl eq_refl eq_refl)
    as [Hcfg [Hraise _]].
  split; [apply Hraise; lia | exact Hcfg].
Defined.

Lemma malformed_payload_no_mutation_witness :
  configuration
    (after (on_message quiet_env (Parsed (JDict [("value", JInt 7)])))
       sample_world)
  = sample_configuration
  /\ outcome (on_message quiet_env (Parsed (JDict [("value", JInt 7)])))
       sample_world
     = Ok tt.
Proof.
  destruct (malformed_payload_no_mutation quiet_env sample_world
              (Parsed (JDict [("value", JInt 7)])) eq_refl)
    as [Hcfg [_ [_ [_ [Hok _]]]]].
  split; [exact Hcfg | exact (Hok _ eq_refl)].
Defined.

(** C2 as stated fails on a payload that is not JSON: the handler raises. *)
Lemma undecodable_payload_raises :
  malformed NotJson /\ ~ dropped_without_harm quiet_env NotJson sample_world.
Proof.
  split; [exact I |].
  intros [_ [_ [_ Hout]]]. vm_compute in Hout. discriminate Hout.
Qed.

Lemma publish_status_does_not_resample_witness :
  trace (after (on_message quiet_env (command "publishStatus")) sample_world)
  = [DatetimeNow;
     Publish (JStr "stats/pi")
       [("macAddress", JStr "B8:27:EB:12:34:56");
        ("timeStamp", JStr "2024-05-01 12:00:00")]
       (JInt 1)]
  /\ last_publish
       (after (on_message quiet_env (command "publishStatus")) sample_world)
     = 0.
Proof.
  destruct (publish_status_does_not_resample quiet_env sample_world
              [("brokerAddress", JStr "10.0.0.2"); ("brokerPort", JStr "1883");
               ("brokerQoS", JInt 1); ("publishTopic", JStr "stats/pi");
               ("controlTopic", JStr "control/pi");
               ("publishInterval", JInt 10)]
              [("command", JStr "publishStatus")]
              (JStr "stats/pi") (JInt 1) eq_refl eq_refl eq_refl eq_refl)
    as [Hlast [_ [_ [_ Htrace]]]].
  split; [exact Htrace | exact Hlast].
Defined.

Lemma unknown_command_reported_witness :
  stdout (after (on_message quiet_env (command "reboot")) sample_world)
  = [[Dumps Tab (JDict [("command", JStr "reboot")])];
     [Lit ("Processing command " ++ dq ++ "reboot" ++ dq)];
     [Lit ("The command " ++ dq ++ "reboot" ++ dq ++ " is not recognized.")];
     [Lit recognized_commands]].
Proof.
  refine (proj2 (proj2 (proj2 (proj2 (proj2
    (unknown_command_reported quiet_env sample_world
       [("command", JStr "reboot")] "reboot" eq_refl _ _ _)))))); discriminate.
Defined.

(** C8 as stated fails on the command [debug], which is none of the three
    named commands and is not reported as unknown. *)
Lemma debug_command_not_reported :
  "debug" <> "publishTelemetry"
  /\ "debug" <> "changeTelemetryInterval"
  /\ "debug" <> "publishStatus"
  /\ ~ reported_unknown quiet_env "debug" sample_world.
Proof.
  repeat split; try discriminate.
  intros [before Hout].
  change (before ++ [?x; ?y])%list with (before ++ [x] ++ [y])%list in Hout.
  rewrite app_assoc in Hout.
  match type of Hout with
  | ?lhs = _ =>
      let v := eval vm_compute in lhs in
      change lhs with (firstn 3 v ++ skipn 3 v)%list in Hout
  end.
  simpl firstn in Hout. simpl skipn in Hout.
  apply app_inj_tail in Hout.
  destruct Hout as [_ Hlast]. discriminate Hlast.
Qed.

(** ** Resolving the IP address *)

Section GetIp.
Variable E : Env.

(** C10.  [get_ip] is not total.  It raises what [socket.socket] raises,
    line 83 being outside the [try], and what the probe raises when that is
    not an [OSError] (of which [InterruptedError] is a subclass); in every
    other case it returns a string, the address of the socket or the
    loopback address when the probe raised.  Once the probe socket exists
    it is closed on every path, as the last call and exactly once; when it
    could not be created no other call is made. *)
Theorem get_ip_outcome (w : World) :
  outcome (get_ip E) w
  = match env_effect E (List.length (trace w)) SocketNew with
    | Raise e => Raise e
    | Ok _ =>
        match udp_probe E (S (List.length (trace w))) with
        | Ok ip => Ok ip
        | Raise e => if is_OSError e then Ok loopback else Raise e
        end
    end
  /\ (env_effect E (List.length (trace w)) SocketNew = Ok tt ->
      exists probe,
        calls_of (get_ip E) w = (SocketNew :: probe ++ [SockClose])%list
        /\ forallb (fun c => negb (is_socket_call c)) probe = true)
  /\ (forall e,
        env_effect E (List.length (trace w)) SocketNew = Raise e ->
        calls_of (get_ip E) w = [SocketNew]).
Proof.
  unfold calls_of, outcome, after, get_ip, udp_probe, try_finally, try_except,
    bind, extern, modify, ret.
  destruct (env_effect E (List.length (trace w)) SocketNew) as [[] | e0].
  2: { cbn [trace record_call fst snd].
       rewrite skipn_app, skipn_all, Nat.sub_diag.
       split; [reflexivity | split; [discriminate | reflexivity]]. }
  cbn [trace record_call fst snd].
  rewrite ?length_app. cbn [List.length]. rewrite ?Nat.add_1_r.
  destruct (env_effect E (S (List.length (trace w))) (SockConnect "8.8.8.8" 80))
    as [[] | e].
  - cbn [trace record_call fst snd]. rewrite ?length_app. cbn [List.length].
    rewrite ?Nat.add_1_r.
    destruct (env_getsockname E (S (S (List.length (trace w))))) as [ip | e].
    + cbn [trace record_call fst snd]. rewrite <- !app_assoc.
      rewrite skipn_app, skipn_all, Nat.sub_diag.
      split; [reflexivity | split; [| discriminate]].
      exists [SockConnect "8.8.8.8" 80; SockGetsockname]. auto.
    + split; [| split; [| discriminate]].
      * destruct e; reflexivity.
      * exists [SockConnect "8.8.8.8" 80; SockGetsockname].
        destruct e; cbn; rewrite <- !app_assoc;
          rewrite skipn_app, skipn_all, Nat.sub_diag; auto.
  - split; [| split; [| discriminate]].
    + destruct e; reflexivity.
    + exists [SockConnect "8.8.8.8" 80].
      destruct e; cbn; rewrite <- !app_assoc;
        rewrite skipn_app, skipn_all, Nat.sub_diag; auto.
Qed.

End GetIp.

Lemma get_ip_outcome_witness :
  outcome (get_ip offline_env) fresh_world = Ok loopback.
Proof. exact (proj1 (get_ip_outcome offline_env fresh_world)). Defined.

(** C10 as stated fails when the probe socket cannot be created and when
    the probe raises something that is not an [OSError]: [get_ip] raises. *)
Lemma get_ip_can_raise :
  ~ resolves no_socket_env fresh_world
  /\ ~ resolves interrupted_probe_env fresh_world.
Proof.
  split; intros [ip Hip]; vm_compute in Hip; discriminate Hip.
Qed.

(** ** The supervising loop: the publish cadence *)

Section Cadence.
Variable E : Env.

Lemma scheduled_publish_waits (w : World) (c : dict) (N : Z) :
  configuration w = JDict c ->
  dict_get c "publishInterval" = Some (JInt N) ->
  env_time E (List.length (trace w)) <= last_publish w + N ->
  scheduled_publish E w = (Ok tt, record_call TimeTime w).
Proof.
  intros Hc HN Hle.
  unfold scheduled_publish, epoch_time, config, bind, extern, get, lift.
  cbn [configuration record_call]. rewrite Hc. cbn [py_getitem].
  rewrite HN. cbn [py_int_sub as_num num_gt_Z last_publish record_call].
  destruct (_ >? _) eqn:Hgt; [| reflexivity].
  apply Z.gtb_gt in Hgt. lia.
Qed.

Lemma bind_ok {A B} (m : M A) (k : A -> M B) (w w1 : World) (a : A) :
  m w = (Ok a, w1) -> bind m k w = k a w1.
Proof. intro Hm. unfold bind. now rewrite Hm. Qed.

Lemma poll_telemetry_ok (w : World) (temp : spec_float) :
  env_cpu_temp E (List.length (trace w)) = Ok temp ->
  poll_telemetry E w
  = (Ok tt,
     set_telemetry (dict_set (telemetry w) "cpuTemp" (JFloat temp))
       (record_call CpuTemperature w)).
Proof.
  intro Htemp. unfold poll_telemetry, bind, extern. now rewrite Htemp.
Qed.

Lemma publish_telemetry_ok
  (w : World) (c : dict) (topic : string) (qos : json) :
  configuration w = JDict c ->
  dict_get c "publishTopic" = Some (JStr topic) ->
  dict_get c "brokerQoS" = Some qos ->
  env_effect E (List.length (trace w) + 1)
    (Publish (JStr topic)
       (dict_set (telemetry w) "timeStamp"
          (JStr (env_strftime E (List.length (trace w))))) qos)
  = Ok tt ->
  publish_telemetry E w
  = (Ok tt,
     let held := dict_set (telemetry w) "timeStamp"
                   (JStr (env_strftime E (List.length (trace w)))) in
     record_line [Dumps (Spaces 3) (JDict held)]
       (record_line [Lit ("Publishing this to '" ++ topic ++ "':")]
          (record_call (Publish (JStr topic) held qos)
             (set_telemetry held (record_call DatetimeNow w))))).
Proof.
  intros Hc Htopic Hqos Hpub.
  unfold publish_telemetry, get_timestamp, set_telemetry_item, config.
  unfold bind at 1, extern at 1. unfold bind at 1, modify at 1.
  unfold bind at 1. unfold bind at 1, get at 1, lift at 1.
  cbn [configuration set_telemetry record_call]. rewrite Hc.
  cbn [py_getitem]. rewrite Htopic.
  unfold bind at 1, get at 1. unfold bind at 1. unfold bind at 1, get at 1.
  unfold lift at 1.
  cbn [configuration telemetry set_telemetry record_call]. rewrite Hc.
  cbn [py_getitem]. rewrite Hqos.
  unfold bind at 1, extern at 1.
  cbn [trace set_telemetry record_call]. rewrite length_app.
  cbn [List.length]. rewrite Hpub.
  unfold bind, get, lift, print, modify.
  cbn [configuration telemetry set_telemetry record_call record_line].
  rewrite Hc. cbn [py_getitem]. rewrite Htopic. reflexivity.
Qed.

Lemma scheduled_publish_fires
  (w : World) (c : dict) (N : Z) (topic : string) (qos : json)
  (temp : spec_float) :
  configuration w = JDict c ->
  dict_get c "publishInterval" = Some (JInt N) ->
  dict_get c "publishTopic" = Some (JStr topic) ->
  dict_get c "brokerQoS" = Some qos ->
  env_time E (List.length (trace w)) > last_publish w + N ->
  env_cpu_temp E (List.length (trace w) + 1) = Ok temp ->
  env_effect E (List.length (trace w) + 3)
    (Publish (JStr topic)
       (sampled_record E (telemetry w) temp (List.length (trace w) + 2)) qos)
  = Ok tt ->
  outcome (scheduled_publish E) w = Ok tt
  /\ configuration (after (scheduled_publish E) w) = configuration w
  /\ telemetry (after (scheduled_publish E) w)
     = sampled_record E (telemetry w) temp (List.length (trace w) + 2)
  /\ trace (after (scheduled_publish E) w)
     = (trace w
        ++ [TimeTime; CpuTemperature; DatetimeNow;
            Publish (JStr topic)
              (sampled_record E (telemetry w) temp (List.length (trace w) + 2))
              qos;
            TimeTime])%list
  /\ last_publish (after (scheduled_publish E) w)
     = env_time E (List.length (trace w) + 4).
Proof.
  intros Hc HN Htopic Hqos Hgt Htemp Hpub.
  set (w1 := record_call TimeTime w).
  set (w2 := set_telemetry (dict_set (telemetry w1) "cpuTemp" (JFloat temp))
               (record_call CpuTemperature w1)).
  set (held := dict_set (telemetry w2) "timeStamp"
                 (JStr (env_strftime E (List.length (trace w2))))).
  set (w3 := record_line [Dumps (Spaces 3) (JDict held)]
               (record_line [Lit ("Publishing this to '" ++ topic ++ "':")]
                  (record_call (Publish (JStr topic) held qos)
                     (set_telemetry held (record_call DatetimeNow w2))))).
  assert (Hn1 : List.length (trace w1) = (List.length (trace w) + 1)%nat)
    by (unfold w1; cbn; now rewrite length_app).
  assert (Hn2 : List.length (trace w2) = (List.length (trace w) + 2)%nat)
    by (unfold w2, w1; cbn; rewrite !length_app; cbn; lia).
  assert (Hn3 : List.length (trace w3) = (List.length (trace w) + 4)%nat)
    by (unfold w3; cbn [trace record_line record_call set_telemetry];
        rewrite !length_app, Hn2; cbn [List.length]; lia).
  assert (Hheld : held = sampled_record E (telemetry w) temp
                           (List.length (trace w) + 2))
    by (unfold held; now rewrite Hn2).
  assert (Heq : scheduled_publish E w
                = (Ok tt,
                   set_last_publish (env_time E (List.length (trace w3)))
                     (record_call TimeTime w3))).
  { unfold scheduled_publish, epoch_time, config.
    unfold bind at 1, extern at 1. unfold bind at 1. unfold bind at 1, get at 1.
    unfold lift at 1. cbn [configuration record_call]. rewrite Hc.
    cbn [py_getitem]. rewrite HN.
    unfold bind at 1, lift at 1. cbn [py_int_sub as_num].
    unfold bind at 1, get at 1. cbn [last_publish record_call num_gt_Z].
    replace (_ - N >? _) with true by (symmetry; apply Z.gtb_gt; lia).
    fold w1.
    rewrite (bind_ok _ _ _ _ _ (poll_telemetry_ok w1 temp
               ltac:(rewrite Hn1; exact Htemp))).
    fold w2.
    rewrite (bind_ok _ _ _ _ _ (publish_telemetry_ok w2 c topic qos Hc Htopic
               Hqos ltac:(fold held; rewrite Hheld, Hn2;
                          replace (List.length (trace w) + 2 + 1)%nat
                            with (List.length (trace w) + 3)%nat by lia;
                          exact Hpub))).
    reflexivity. }
  unfold outcome, after. rewrite Heq, Hn3. cbn [fst snd].
  unfold w3, w2, w1.
  cbn [configuration last_publish telemetry trace record_call set_telemetry
       record_line set_last_publish].
  fold w1. fold w2. fold held. rewrite Hheld.
  rewrite <- !app_assoc. cbn [app]. auto.
Qed.


Lemma passed_fields (b : bool) (w : World) :
  configuration (passed b w) = configuration w
  /\ last_publish (passed b w) = last_publish w
  /\ telemetry (passed b w) = telemetry w
  /\ trace (passed b w) = (trace w ++ pass_calls b)%list.
Proof.
  destruct b; cbn; rewrite <- ?app_assoc; auto.
Qed.

Lemma check_connection_passes (w : World) (b : bool) :
  passes_check E (List.length (trace w)) b ->
  check_connection E w = (Ok Next, passed b w).
Proof.
  intros [Hconn Hre].
  unfold check_connection, try_except, bind, extern. rewrite Hconn.
  destruct b; cbn [negb ret fst snd passed]; [reflexivity |].
  destruct (Hre eq_refl) as [Hsleep Hreconnect].
  cbn [trace record_call]. rewrite !length_app. cbn [List.length].
  rewrite Hsleep.
  replace (List.length (trace w) + 1 + 1)%nat
    with (List.length (trace w) + 2)%nat by lia.
  now rewrite Hreconnect.
Qed.

(** Every connection check that lets the iteration go on is one of the
    two. *)
Lemma check_connection_next (w w1 : World) :
  check_connection E w = (Ok Next, w1) ->
  exists b, passes_check E (List.length (trace w)) b /\ w1 = passed b w.
Proof.
  unfold check_connection, try_except, bind, extern, passes_check.
  destruct (env_is_connected E (List.length (trace w))) as [[|] | e];
    cbn [negb ret fst snd]; [| | discriminate].
  - intro Hrun. exists true. split; [split; [reflexivity | discriminate] |].
    now injection Hrun.
  - cbn [trace record_call]. rewrite !length_app. cbn [List.length].
    replace (List.length (trace w) + 1 + 1)%nat
      with (List.length (trace w) + 2)%nat by lia.
    destruct (env_effect E (List.length (trace w) + 1) (Sleep 3))
      as [[] | e].
    + destruct (env_effect E (List.length (trace w) + 2) Reconnect)
        as [[] | e]; cbn [fst snd].
      * intro Hrun. exists false. split; [auto |]. now injection Hrun.
      * destruct e; cbn [print modify ret bind]; try discriminate.
        unfold print, modify.
        destruct (close_mqtt E _) as [[[] | e'] w']; discriminate.
    + destruct e; cbn [fst snd]; try discriminate.
      unfold print, modify.
      destruct (close_mqtt E _) as [[[] | e'] w']; discriminate.
Qed.

Lemma loop_iteration_passes_and_waits (w : World) (c : dict) (N : Z)
  (b : bool) :
  configuration w = JDict c ->
  dict_get c "publishInterval" = Some (JInt N) ->
  passes_check E (List.length (trace w)) b ->
  env_time E (List.length (trace w) + List.length (pass_calls b))
  <= last_publish w + N ->
  loop_iteration E w = (Ok Next, record_call TimeTime (passed b w)).
Proof.
  intros Hc HN Hpass Hle.
  destruct (passed_fields b w) as [Pc [Pl [_ Ptr]]].
  unfold loop_iteration.
  rewrite (bind_ok _ _ _ _ _ (check_connection_passes w b Hpass)).
  unfold bind.
  rewrite (scheduled_publish_waits (passed b w) c N); auto.
  - congruence.
  - now rewrite Ptr, length_app, Pl.
Qed.

Lemma waited_fields (s : list bool) (w : World) :
  configuration (waited s w) = configuration w
  /\ last_publish (waited s w) = last_publish w
  /\ telemetry (waited s w) = telemetry w
  /\ trace (waited s w) = (trace w ++ waiting_calls s)%list.
Proof.
  revert w. induction s as [| b s IH]; intro w; cbn [waited waiting_calls].
  - now rewrite app_nil_r.
  - destruct (IH (record_call TimeTime (passed b w))) as [Hc [Hl [Ht Htr]]].
    destruct (passed_fields b w) as [Pc [Pl [Pt Ptr]]].
    rewrite Hc, Hl, Ht, Htr. cbn [configuration last_publish telemetry trace
                                  record_call].
    rewrite Ptr, <- !app_assoc. auto.
Qed.

Lemma waiting_calls_no_publish (s : list bool) :
  forallb (fun c => negb (is_publish c)) (waiting_calls s) = true.
Proof. induction s as [| [|] s IH]; cbn; auto. Qed.

(** As long as the clock has not passed [last_publish + N], the loop only
    checks the connection and reads the clock. *)
Lemma while_true_waits (s : list bool) (m : nat) (w : World) (c : dict)
  (N : Z) :
  configuration w = JDict c ->
  dict_get c "publishInterval" = Some (JInt N) ->
  waits E (last_publish w + N) (List.length (trace w)) s ->
  while_true E (List.length s + m) w = while_true E m (waited s w).
Proof.
  revert w. induction s as [| b s IH]; intros w Hc HN Hwaits.
  - reflexivity.
  - destruct Hwaits as [Hpass [Hle Hrest]].
    destruct (passed_fields b w) as [Pc [Pl [_ Ptr]]].
    cbn [List.length Nat.add while_true waited].
    rewrite (bind_ok _ _ _ _ _
               (loop_iteration_passes_and_waits w c N b Hc HN Hpass Hle)).
    apply IH; cbn [configuration last_publish trace record_call].
    + congruence.
    + exact HN.
    + rewrite Pl, Ptr, !length_app. cbn [List.length]. exact Hrest.
Qed.

(** C3.  With interval [N] and [last_publish = T]: a run of iterations that
    pass the connection check, the client being connected or reconnected
    after the sleep, and whose clock readings are at most [T + N], followed
    by one whose reading exceeds [T + N], publishes exactly once, in that
    last iteration.  The first iterations only check the connection and read
    the clock and leave [last_publish] at [T]; the last one samples the
    sensor, publishes the sampled record and sets [last_publish] to a
    second reading of the clock, taken after the publish (line 184), not to
    the reading that was compared with the interval (line 179). *)
Theorem publish_when_interval_elapsed
  (w : World) (c : dict) (N : Z) (topic : string) (qos : json)
  (temp : spec_float) (s : list bool) (b : bool) :
  configuration w = JDict c ->
  dict_get c "publishInterval" = Some (JInt N) ->
  dict_get c "publishTopic" = Some (JStr topic) ->
  dict_get c "brokerQoS" = Some qos ->
  waits E (last_publish w + N) (List.length (trace w)) s ->
  passes_check E (List.length (trace w) + List.length (waiting_calls s)) b ->
  env_time E (due w s b) > last_publish w + N ->
  env_cpu_temp E (due w s b + 1) = Ok temp ->
  env_effect E (due w s b + 3)
    (Publish (JStr topic)
       (sampled_record E (telemetry w) temp (due w s b + 2)) qos)
  = Ok tt ->
  (outcome (while_true E (List.length s)) w = Ok Running
   /\ calls_of (while_true E (List.length s)) w = waiting_calls s
   /\ forallb (fun c => negb (is_publish c)) (waiting_calls s) = true
   /\ last_publish (after (while_true E (List.length s)) w) = last_publish w)
  /\ outcome (while_true E (S (List.length s))) w = Ok Running
  /\ calls_of (while_true E (S (List.length s))) w
     = (waiting_calls s ++ pass_calls b
        ++ [TimeTime; CpuTemperature; DatetimeNow;
            Publish (JStr topic)
              (sampled_record E (telemetry w) temp (due w s b + 2)) qos;
            TimeTime])%list
  /\ telemetry (after (while_true E (S (List.length s))) w)
     = sampled_record E (telemetry w) temp (due w s b + 2)
  /\ last_publish (after (while_true E (S (List.length s))) w)
     = env_time E (due w s b + 4).
Proof.
  intros Hc HN Htopic Hqos Hwaits Hpass Hgt Htemp Hpub.
  destruct (waited_fields s w) as [Ic [Il [It Itr]]].
  assert (Hidle : forall m,
            while_true E (List.length s + m) w = while_true E m (waited s w))
    by (intro m; now apply (while_true_waits s m w c N)).
  assert (H0 : while_true E (List.length s) w = (Ok Running, waited s w)).
  { specialize (Hidle 0%nat). now rewrite Nat.add_0_r in Hidle. }
  assert (H1 : while_true E (S (List.length s)) w
               = while_true E 1 (waited s w)).
  { specialize (Hidle 1%nat). now rewrite Nat.add_1_r in Hidle. }
  split.
  - unfold calls_of, outcome, after. rewrite H0. cbn [fst snd].
    rewrite Itr, Il, skipn_app, skipn_all, Nat.sub_diag.
    repeat split; auto using waiting_calls_no_publish.
  - set (w1 := passed b (waited s w)).
    destruct (passed_fields b (waited s w)) as [Pc [Pl [Pt Ptr]]].
    fold w1 in Pc, Pl, Pt, Ptr.
    assert (Hn : List.length (trace w1) = due w s b)
      by (unfold due; now rewrite Ptr, Itr, !length_app).
    assert (Hcheck : check_connection E (waited s w) = (Ok Next, w1)).
    { apply check_connection_passes. now rewrite Itr, length_app. }
    destruct (scheduled_publish_fires w1 c N topic qos temp)
      as [Ho [_ [Ht [Htr Hl]]]];
      try rewrite Hn; try rewrite Pl; try rewrite Pt; try rewrite Il;
      try rewrite It; auto; try congruence.
    assert (Hstep : loop_iteration E (waited s w)
                    = (Ok Next, after (scheduled_publish E) w1)).
    { unfold loop_iteration. rewrite (bind_ok _ _ _ _ _ Hcheck).
      unfold bind, outcome, after in *.
      destruct (scheduled_publish E w1) as [r w2]. cbn [fst snd] in *.
      now subst r. }
    unfold calls_of, outcome, after. rewrite H1. cbn [while_true].
    unfold bind. rewrite Hstep. cbn [ret fst snd].
    rewrite Ht, Htr, Hl, Hn, Pt, It, Ptr, Itr.
    rewrite <- !app_assoc, skipn_app, skipn_all, Nat.sub_diag.
    cbn [skipn]. auto.
Qed.

End Cadence.

(** ** Frame properties *)

Lemma grows_modify (ok : call -> bool) (g : World -> World) :
  (forall w, trace (g w) = trace w) -> respects (grows ok) (modify g).
Proof.
  intros Hg w. exists []. unfold after, modify. cbn [snd].
  now rewrite Hg, app_nil_r.
Qed.

Lemma grows_extern (ok : call -> bool) {A} (c : call)
  (answer : nat -> result A) :
  ok c = true -> respects (grows ok) (extern c answer).
Proof. intros Hc w. now apply grows_record_call. Qed.

(** The leaves of a walk: assignments, prints and calls. *)
Ltac leaves :=
  first
    [ apply respects_modify; intro; reflexivity
    | apply respects_extern; intro; reflexivity
    | apply grows_modify; intro; reflexivity
    | apply grows_extern; reflexivity
    | apply respects_modify; intro; apply grows_record_call; reflexivity ].

Ltac frame :=
  unfold scheduled_publish, check_connection, loop_iteration, close_mqtt,
    publish_telemetry, poll_telemetry, on_connect, get_ip, epoch_time,
    get_timestamp, set_telemetry_item, config_str, config, print;
  walk; try leaves.

Section Frames.
Variable E : Env.

Lemma same_configuration_poll_telemetry :
  respects (same configuration) (poll_telemetry E).
Proof. frame. Qed.

Lemma same_configuration_publish_telemetry :
  respects (same configuration) (publish_telemetry E).
Proof. frame. Qed.

Lemma same_configuration_close_mqtt :
  respects (same configuration) (close_mqtt E).
Proof. frame. Qed.

Lemma same_configuration_on_connect (rc : Z) :
  respects (same configuration) (on_connect rc).
Proof. frame. Qed.

Lemma same_configuration_loop_iteration :
  respects (same configuration) (loop_iteration E).
Proof. frame. Qed.

Lemma same_configuration_while_true (fuel : nat) :
  respects (same configuration) (while_true E fuel).
Proof.
  induction fuel as [| fuel IH]; cbn [while_true].
  - walk.
  - apply respects_bind;
      [typeclasses eauto | apply same_configuration_loop_iteration |].
    intros []; [exact IH | walk].
Qed.

End Frames.

(** ** The configuration after load *)

Ltac step :=
  match goal with
  | |- context [bind (ret ?a) ?k ?w] =>
      change (bind (ret a) k w) with (k a w); cbv beta
  | |- context [bind (print ?l) ?k ?w] =>
      change (bind (print l) k w) with (k tt (record_line l w)); cbv beta
  | |- context [bind (lift (Ok ?a)) ?k ?w] =>
      change (bind (lift (Ok a)) k w) with (k a w); cbv beta
  | |- context [bind (lift (@Raise ?A ?e)) ?k ?w] =>
      change (bind (lift (@Raise A e)) k w) with (@Raise unit e, w)
  end.

Section ConfigurationFrame.
Variable E : Env.

Lemma py_setitem_other (c c' : json) (k k' : string) (v : json) :
  py_setitem c k' v = Ok c' -> k <> k' -> py_getitem c' k = py_getitem c k.
Proof.
  intros Hset Hne. destruct c; try discriminate Hset.
  injection Hset as <-. cbn [py_getitem].
  now rewrite dict_get_set_other.
Qed.

Lemma change_telemetry_interval_configuration (message : json) (w : World) :
  configuration (after (change_telemetry_interval message) w)
  = configuration w
  \/ exists old new,
       py_getitem message "value" = Ok new
       /\ py_getitem (configuration w) "publishInterval" = Ok old
       /\ py_eq old new = false
       /\ py_gt_int new 4 = Ok true
       /\ py_setitem (configuration w) "publishInterval" new
          = Ok (configuration (after (change_telemetry_interval message) w)).
Proof.
  unfold after, change_telemetry_interval, config, bind, get, lift, print,
    modify, ret.
  destruct (py_getitem (configuration w) "publishInterval") as [old | e] eqn:Ho;
    [| now left].
  destruct (py_getitem message "value") as [new | e] eqn:Hn; [| now left].
  destruct (py_eq old new) eqn:Heq; cbn [negb fst snd]; [now left |].
  destruct (py_gt_int new 4) as [[|] | e] eqn:Hgt; cbn [fst snd];
    try now left.
  destruct (py_str_operand old) as [s | e]; cbn [fst snd]; [| now left].
  cbn [configuration record_line].
  destruct (py_setitem (configuration w) "publishInterval" new)
    as [c' | e] eqn:Hset; cbn [fst snd]; [| now left].
  right. exists old, new.
  cbn [configuration record_line set_configuration].
  destruct (py_getitem c' "publishInterval") as [now | e]; cbn [fst snd];
    [destruct (py_str_operand now) |]; repeat split; auto.
Qed.

Lemma on_message_configuration (msg : payload) (w : World) :
  configuration (after (on_message E msg) w) = configuration w
  \/ validated_interval_update msg (configuration w)
       (configuration (after (on_message E msg) w)).
Proof.
  unfold after, on_message.
  destruct msg as [| | message]; try (now left).
  unfold json_loads. step. step.
  destruct (py_contains message "command") as [[|] | e] eqn:Hhas; step;
    try now left.
  destruct (py_getitem message "command") as [value | e] eqn:Hcmd; step;
    try now left.
  destruct value as [| b | z | f | name | l | d]; cbn [py_str_operand]; step;
    try now left.
  step.
  set (w1 := record_line _ (record_line _ w)).
  assert (Hw1 : configuration w1 = configuration w) by reflexivity.
  destruct (String.eqb name "publishTelemetry").
  { left. rewrite <- Hw1.
    refine ((_ : respects (same configuration) _) w1). frame. }
  destruct (String.eqb name "changeTelemetryInterval") eqn:Hname.
  { apply String.eqb_eq in Hname. subst name.
    destruct (change_telemetry_interval_configuration message w1)
      as [Hsame | [old [new [Hv [Ho [Heq [Hgt Hset]]]]]]].
    - left. now rewrite <- Hw1.
    - right. exists message, old, new. rewrite <- Hw1. repeat split; auto. }
  destruct (String.eqb name "publishStatus").
  { left. rewrite <- Hw1.
    apply (same_configuration_publish_telemetry E w1). }
  destruct (String.eqb name "debug"); now left.
Qed.

(** C9.  After the load, the configuration is changed by nothing but the
    message handler, and by it only when a [changeTelemetryInterval] command
    carries a value that differs from the current interval and exceeds 4;
    the change then overwrites [publishInterval] and no other key.  Sampling,
    publishing, the connection check with its reconnect, every iteration of
    the loop, [close_mqtt] and the connection callback leave the
    configuration as it is. *)
Theorem only_validated_command_changes_configuration :
  (forall msg w,
     (configuration (after (on_message E msg) w) = configuration w
      \/ validated_interval_update msg (configuration w)
           (configuration (after (on_message E msg) w)))
     /\ (forall k, k <> "publishInterval" ->
         py_getitem (configuration (after (on_message E msg) w)) k
         = py_getitem (configuration w) k))
  /\ (forall w, configuration (after (poll_telemetry E) w) = configuration w)
  /\ (forall w, configuration (after (publish_telemetry E) w) = configuration w)
  /\ (forall w, configuration (after (loop_iteration E) w) = configuration w)
  /\ (forall fuel w,
      configuration (after (while_true E fuel) w) = configuration w)
  /\ (forall w, configuration (after (close_mqtt E) w) = configuration w)
  /\ (forall rc w, configuration (after (on_connect rc) w) = configuration w).
Proof.
  split; [| repeat split; intros].
  - intros msg w.
    destruct (on_message_configuration msg w)
      as [Hsame | Hupd]; split; auto.
    + intros k _. now rewrite Hsame.
    + intros k Hk.
      destruct Hupd as [message [old [new [_ [_ [_ [_ [_ [_ Hset]]]]]]]]].
      now apply (py_setitem_other _ _ k _ _ Hset).
  - apply same_configuration_poll_telemetry.
  - apply same_configuration_publish_telemetry.
  - apply same_configuration_loop_iteration.
  - apply same_configuration_while_true.
  - apply same_configuration_close_mqtt.
  - apply same_configuration_on_connect.
Qed.

End ConfigurationFrame.

(** ** Subscriptions after a reconnect *)

Ltac frame_handler :=
  unfold on_message, change_telemetry_interval, json_loads; frame.

Section Subscriptions.
Variable E : Env.

Lemma loop_iteration_never_subscribes :
  respects (grows (fun c => negb (is_subscribe c))) (loop_iteration E).
Proof. frame. Qed.

Lemma while_true_never_subscribes (fuel : nat) :
  respects (grows (fun c => negb (is_subscribe c))) (while_true E fuel).
Proof.
  induction fuel as [| fuel IH]; cbn [while_true].
  - walk.
  - apply respects_bind;
      [typeclasses eauto | apply loop_iteration_never_subscribes |].
    intros []; [exact IH | walk].
Qed.

Lemma on_message_never_subscribes (msg : payload) :
  respects (grows (fun c => negb (is_subscribe c))) (on_message E msg).
Proof. frame_handler. Qed.

Lemma on_connect_never_subscribes (rc : Z) :
  respects (grows (fun c => negb (is_subscribe c))) (on_connect rc).
Proof. frame. Qed.

Lemma check_connection_reconnects (w : World) :
  env_is_connected E (List.length (trace w)) = Ok false ->
  env_effect E (List.length (trace w) + 1) (Sleep 3) = Ok tt ->
  env_effect E (List.length (trace w) + 2) Reconnect = Ok tt ->
  check_connection E w
  = (Ok Next,
     record_call Reconnect (record_call (Sleep 3) (record_call IsConnected w))).
Proof.
  intros Hconn Hsleep Hre.
  unfold check_connection, try_except, bind, extern.
  rewrite Hconn. cbn [negb trace record_call].
  rewrite !length_app. cbn [List.length]. rewrite Hsleep.
  replace (List.length (trace w) + 1 + 1)%nat
    with (List.length (trace w) + 2)%nat by lia.
  now rewrite Hre.
Qed.

(** C7, as the code has it.  A reconnect that succeeds is followed by the
    scheduled publish, not by a [subscribe]: no iteration of the loop, no
    run of the message handler and no run of the connection callback ever
    calls [subscribe], which is called by the startup sequence only. *)
Theorem reconnect_does_not_resubscribe :
  (forall w,
     env_is_connected E (List.length (trace w)) = Ok false ->
     env_effect E (List.length (trace w) + 1) (Sleep 3) = Ok tt ->
     env_effect E (List.length (trace w) + 2) Reconnect = Ok tt ->
     outcome (check_connection E) w = Ok Next
     /\ calls_of (check_connection E) w = [IsConnected; Sleep 3; Reconnect])
  /\ (forall fuel w,
        trace (after (while_true E fuel) w)
        = (trace w ++ calls_of (while_true E fuel) w)%list
        /\ existsb is_subscribe (calls_of (while_true E fuel) w) = false)
  /\ (forall msg w,
        existsb is_subscribe (calls_of (on_message E msg) w) = false)
  /\ (forall rc w, existsb is_subscribe (calls_of (on_connect rc) w) = false).
Proof.
  assert (Hnone : forall l,
            forallb (fun c => negb (is_subscribe c)) l = true ->
            existsb is_subscribe l = false).
  { induction l as [| c l IH]; cbn; [reflexivity |].
    destruct (is_subscribe c); cbn; [discriminate | exact IH]. }
  split; [intros w Hconn Hsleep Hre; split |
          split; [intros fuel w; split | split; [intros msg w | intros rc w]]].
  - unfold outcome. now rewrite check_connection_reconnects.
  - unfold calls_of, after. rewrite check_connection_reconnects by assumption.
    cbn [snd trace record_call]. rewrite <- !app_assoc.
    now rewrite skipn_app, skipn_all, Nat.sub_diag.
  - apply (grows_calls_of _ _ _ (while_true_never_subscribes fuel w)).
  - apply Hnone.
    apply (grows_calls_of _ _ _ (while_true_never_subscribes fuel w)).
  - apply Hnone.
    apply (grows_calls_of _ _ _ (on_message_never_subscribes msg w)).
  - apply Hnone.
    apply (grows_calls_of _ _ _ (on_connect_never_subscribes rc w)).
Qed.

End Subscriptions.

(** ** Closing the broker session on exit *)

Lemma closing_refl (w : World) : closing w w [].
Proof. exists []. now rewrite app_nil_r. Qed.

Lemma closing_trans (a b c : World) (x y : list call) :
  closing a b x -> closing b c y -> closing a c (x ++ y).
Proof.
  intros [l1 [H1 F1]] [l2 [H2 F2]]. exists (l1 ++ l2)%list. split.
  - now rewrite H2, H1, app_assoc.
  - now rewrite filter_app, F1, F2.
Qed.

Lemma closing_record_line (w : World) (l : line) :
  closing w (record_line l w) [].
Proof. exists []. cbn. now rewrite app_nil_r. Qed.

Lemma closing_record_call (w : World) (c : call) :
  closing w (record_call c w) (if is_close c then [c] else []).
Proof. exists [c]. split; [reflexivity | cbn; now destruct (is_close c)]. Qed.

Lemma grows_closing (a b : World) :
  grows (fun c => negb (is_close c)) a b -> closing a b [].
Proof.
  intros [l [Hl Fl]]. exists l. split; [exact Hl |]. clear Hl.
  induction l as [| c l IH]; [reflexivity |].
  cbn in Fl |- *. destruct (is_close c); [discriminate |]. now apply IH.
Qed.

Lemma closing_calls_of {A} (m : M A) (w : World) (cl : list call) :
  closing w (after m w) cl -> filter is_close (calls_of m w) = cl.
Proof.
  intros [l [Hl Fl]]. unfold calls_of.
  now rewrite Hl, skipn_app, skipn_all, Nat.sub_diag.
Qed.

Section Closing.
Variable E : Env.
Hypothesis polite : closes_politely E.

Lemma close_mqtt_closing (w : World) :
  (exists t,
     py_getitem (configuration w) "controlTopic" = Ok t
     /\ outcome (close_mqtt E) w = Ok tt
     /\ closing w (after (close_mqtt E) w) (close_calls t))
  \/ (exists e,
        py_getitem (configuration w) "controlTopic" = Raise e
        /\ outcome (close_mqtt E) w = Raise e
        /\ closing w (after (close_mqtt E) w) []).
Proof.
  unfold outcome, after, close_mqtt, config, bind, get, lift, extern.
  destruct (py_getitem (configuration w) "controlTopic") as [t | e].
  - left. exists t. cbn [trace record_call fst snd].
    rewrite (polite _ (Unsubscribe t) eq_refl).
    rewrite (polite _ LoopStop eq_refl).
    rewrite (polite _ Disconnect eq_refl).
    cbn [fst snd]. repeat split.
    exists (close_calls t). cbn. now rewrite <- !app_assoc.
  - right. exists e. repeat split. apply closing_refl.
Qed.

(** The handler of lines 175 to 178. *)
Lemma reconnect_timeout_closing (w : World) (l : line) :
  (outcome (print l ;;; close_mqtt E ;;; ret Break) w = Ok Break
   /\ exists t,
        closing w (after (print l ;;; close_mqtt E ;;; ret Break) w)
          (close_calls t))
  \/ (outcome (print l ;;; close_mqtt E ;;; ret Break) w <> Ok Break
      /\ closing w (after (print l ;;; close_mqtt E ;;; ret Break) w) []).
Proof.
  unfold outcome, after. step. unfold bind, ret.
  destruct (close_mqtt_closing (record_line l w))
    as [[t [_ [Ho Hc]]] | [e [_ [Ho Hc]]]];
    unfold outcome, after in Ho, Hc;
    destruct (close_mqtt E (record_line l w)) as [r w']; cbn [fst snd] in *;
    subst r; cbn [fst snd].
  - left. split; [reflexivity |]. exists t.
    apply (closing_trans _ _ _ [] _ (closing_record_line w l) Hc).
  - right. split; [discriminate |].
    apply (closing_trans _ _ _ [] _ (closing_record_line w l) Hc).
Qed.

Lemma check_connection_closing (w : World) :
  (outcome (check_connection E) w = Ok Break
   /\ exists t, closing w (after (check_connection E) w) (close_calls t))
  \/ (outcome (check_connection E) w <> Ok Break
      /\ closing w (after (check_connection E) w) []).
Proof.
  unfold outcome, after.
  destruct (check_connection E w) as [r w'] eqn:Hrun. cbn [fst snd].
  unfold check_connection in Hrun. unfold bind at 1, extern at 1 in Hrun.
  pose proof (closing_record_call w IsConnected) as H1. cbn [is_close] in H1.
  set (w1 := record_call IsConnected w) in *.
  revert Hrun.
  destruct (env_is_connected E _) as [[|] | e]; cbn [negb]; intro Hrun;
    try (injection Hrun as <- <-; right; split; [discriminate | exact H1]).
  unfold try_except in Hrun. unfold bind at 1, extern at 1 in Hrun.
  pose proof (closing_record_call w1 (Sleep 3)) as H2. cbn [is_close] in H2.
  set (w2 := record_call (Sleep 3) w1) in *.
  assert (H12 : closing w w2 [])
    by apply (closing_trans _ _ _ [] [] H1 H2).
  pose proof (reconnect_timeout_closing w2
                [Lit "Timeout encountered while trying to reconnect to the MQTT broker!"])
    as Hh2.
  revert Hrun.
  destruct (env_effect E _ (Sleep 3)) as [[] | e]; intro Hrun.
  - unfold bind at 1, extern at 1 in Hrun.
    pose proof (closing_record_call w2 Reconnect) as H3. cbn [is_close] in H3.
    set (w3 := record_call Reconnect w2) in *.
    assert (H13 : closing w w3 [])
      by apply (closing_trans _ _ _ [] [] H12 H3).
    pose proof (reconnect_timeout_closing w3
                  [Lit "Timeout encountered while trying to reconnect to the MQTT broker!"])
      as Hh3.
    revert Hrun.
    destruct (env_effect E _ Reconnect) as [[] | e]; intro Hrun.
    + injection Hrun as <- <-. right. split; [discriminate | exact H13].
    + destruct e;
        try (injection Hrun as <- <-; right; split; [discriminate | exact H13]).
      unfold outcome, after in Hh3. rewrite Hrun in Hh3. cbn [fst snd] in Hh3.
      destruct Hh3 as [[Ho [t Hc]] | [Ho Hc]]; [left | right]; split; auto.
      * exists t. apply (closing_trans _ _ _ [] _ H13 Hc).
      * apply (closing_trans _ _ _ [] _ H13 Hc).
  - destruct e;
      try (injection Hrun as <- <-; right; split; [discriminate | exact H12]).
    unfold outcome, after in Hh2. rewrite Hrun in Hh2. cbn [fst snd] in Hh2.
    destruct Hh2 as [[Ho [t Hc]] | [Ho Hc]]; [left | right]; split; auto.
    + exists t. apply (closing_trans _ _ _ [] _ H12 Hc).
    + apply (closing_trans _ _ _ [] _ H12 Hc).
Qed.

(** A handler that prints, closes the session and ends. *)
Lemma print_close_closing {A} (l : line) (a : A) (w : World) :
  match py_getitem (configuration w) "controlTopic" with
  | Ok t =>
      outcome (print l ;;; close_mqtt E ;;; ret a) w = Ok a
      /\ closing w (after (print l ;;; close_mqtt E ;;; ret a) w)
           (close_calls t)
  | Raise e =>
      outcome (print l ;;; close_mqtt E ;;; ret a) w = Raise e
      /\ closing w (after (print l ;;; close_mqtt E ;;; ret a) w) []
  end.
Proof.
  unfold outcome, after. step. unfold bind, ret.
  destruct (close_mqtt_closing (record_line l w))
    as [[t [Ht [Ho Hc]]] | [e [Ht [Ho Hc]]]];
    unfold outcome, after in Ho, Hc; cbn [configuration record_line] in Ht;
    rewrite Ht;
    destruct (close_mqtt E (record_line l w)) as [r w']; cbn [fst snd] in *;
    subst r; cbn [fst snd]; split; auto;
    apply (closing_trans _ _ _ [] _ (closing_record_line w l) Hc).
Qed.

Lemma scheduled_publish_never_closes :
  respects (grows (fun c => negb (is_close c))) (scheduled_publish E).
Proof. frame. Qed.

Lemma startup_never_closes (argv : list string) :
  respects (grows (fun c => negb (is_close c))) (startup E argv).
Proof. unfold startup. frame. Qed.

Lemma loop_iteration_closing (w : World) :
  (outcome (loop_iteration E) w = Ok Break
   /\ exists t, closing w (after (loop_iteration E) w) (close_calls t))
  \/ (outcome (loop_iteration E) w <> Ok Break
      /\ closing w (after (loop_iteration E) w) []).
Proof.
  pose proof (check_connection_closing w) as Hcheck.
  unfold outcome, after, loop_iteration, bind in *.
  destruct (check_connection E w) as [[[|] | e] w1]; cbn [fst snd] in *.
  - pose proof (grows_closing _ _ (scheduled_publish_never_closes w1)) as Hs.
    unfold after in Hs.
    destruct Hcheck as [[Ho _] | [_ Hc]]; [discriminate Ho |].
    right. destruct (scheduled_publish E w1) as [[[] | e] w2];
      cbn [fst snd ret] in *;
      (split; [discriminate | apply (closing_trans _ _ _ [] [] Hc Hs)]).
  - unfold ret. cbn [fst snd]. destruct Hcheck as [[_ Hc] | [Ho _]];
      [left; split; auto | now destruct Ho].
  - destruct Hcheck as [[Ho _] | [_ Hc]]; [discriminate Ho |].
    right. split; [discriminate | exact Hc].
Qed.

Lemma while_true_closing (fuel : nat) (w : World) :
  match outcome (while_true E fuel) w with
  | Ok Returned =>
      exists t, closing w (after (while_true E fuel) w) (close_calls t)
  | _ => closing w (after (while_true E fuel) w) []
  end.
Proof.
  revert w. induction fuel as [| fuel IH]; intro w; cbn [while_true].
  - apply closing_refl.
  - pose proof (loop_iteration_closing w) as Hstep.
    unfold outcome, after, bind in *.
    destruct (loop_iteration E w) as [[[|] | e] w1]; cbn [fst snd] in *.
    + destruct Hstep as [[Ho _] | [_ Hc]]; [discriminate Ho |].
      specialize (IH w1).
      destruct (while_true E fuel w1) as [[[|] | e] w2]; cbn [fst snd] in *.
      * apply (closing_trans _ _ _ [] [] Hc IH).
      * destruct IH as [t Ht]. exists t.
        apply (closing_trans _ _ _ [] _ Hc Ht).
      * apply (closing_trans _ _ _ [] [] Hc IH).
    + unfold ret. cbn [fst snd]. destruct Hstep as [[_ Hc] | [Ho _]];
        [exact Hc | now destruct Ho].
    + destruct Hstep as [[Ho _] | [_ Hc]]; [discriminate Ho | exact Hc].
Qed.

Lemma main_body_closing (argv : list string) (fuel : nat) (w : World) :
  match outcome (main_body E argv fuel) w with
  | Ok Returned =>
      exists t, closing w (after (main_body E argv fuel) w) (close_calls t)
  | _ => closing w (after (main_body E argv fuel) w) []
  end.
Proof.
  pose proof (grows_closing _ _ (startup_never_closes argv w)) as Hs.
  unfold outcome, after, main_body, bind in *.
  destruct (startup E argv w) as [[[] | e] w1]; cbn [fst snd] in *;
    [| exact Hs].
  pose proof (while_true_closing fuel w1) as Hl. unfold outcome, after in Hl.
  destruct (while_true E fuel w1) as [[[|] | e] w2]; cbn [fst snd] in *.
  - apply (closing_trans _ _ _ [] [] Hs Hl).
  - destruct Hl as [t Ht]. exists t. apply (closing_trans _ _ _ [] _ Hs Ht).
  - apply (closing_trans _ _ _ [] [] Hs Hl).
Qed.

(** C5, as the code has it.  When the closing calls themselves do not
    raise, [close_mqtt] never runs twice.  It runs once when the loop ends
    after a reconnect timeout, and once when [main] ends on a keyboard
    interrupt or on a timeout with a configuration that holds the control
    topic.  It does not run when [main] ends on a [KeyError], on a refused
    connection, or on an exception that no clause catches. *)
Theorem close_mqtt_at_most_once (argv : list string) (fuel : nat) (w : World) :
  match outcome (main_body E argv fuel) w with
  | Ok Running =>
      outcome (main E argv fuel) w = Ok Running
      /\ filter is_close (calls_of (main E argv fuel) w) = []
  | Ok Returned =>
      outcome (main E argv fuel) w = Ok Returned
      /\ exists t,
           filter is_close (calls_of (main E argv fuel) w) = close_calls t
  | Raise KeyboardInterrupt | Raise TimeoutError =>
      match py_getitem (configuration (after (main_body E argv fuel) w))
              "controlTopic" with
      | Ok t =>
          outcome (main E argv fuel) w = Ok Returned
          /\ filter is_close (calls_of (main E argv fuel) w) = close_calls t
      | Raise e =>
          outcome (main E argv fuel) w = Raise e
          /\ filter is_close (calls_of (main E argv fuel) w) = []
      end
  | Raise (KeyError _) | Raise ConnectionRefusedError =>
      outcome (main E argv fuel) w = Ok Returned
      /\ filter is_close (calls_of (main E argv fuel) w) = []
  | Raise e =>
      outcome (main E argv fuel) w = Raise e
      /\ filter is_close (calls_of (main E argv fuel) w) = []
  end.
Proof.
  pose proof (main_body_closing argv fuel w) as Hbody.
  assert (Hcalls : forall cl,
            closing w (after (main E argv fuel) w) cl ->
            filter is_close (calls_of (main E argv fuel) w) = cl)
    by (intros cl; apply closing_calls_of).
  revert Hcalls. unfold outcome, after, main, try_except in *.
  destruct (main_body E argv fuel w) as [[[|] | e] wb]; cbn [fst snd] in *;
    intro Hcalls.
  - split; [reflexivity | apply Hcalls; exact Hbody].
  - destruct Hbody as [t Ht]. split; [reflexivity |]. exists t. auto.
  - destruct e; cbn [main_handlers fst snd] in *; try (split; auto; fail).
    + pose proof (print_close_closing
                    [Lit (nl ++ "Keyboard interrupt detected, exiting..." ++ nl)]
                    Returned wb) as Hh.
      unfold outcome, after in Hh.
      destruct (py_getitem (configuration wb) "controlTopic");
        destruct Hh as [Ho Hc]; split; auto; apply Hcalls;
        apply (closing_trans _ _ _ [] _ Hbody Hc).
    + pose proof (print_close_closing
                    [Lit "Timeout encountered while connecting to the MQTT broker!"]
                    Returned wb) as Hh.
      unfold outcome, after in Hh.
      destruct (py_getitem (configuration wb) "controlTopic");
        destruct Hh as [Ho Hc]; split; auto; apply Hcalls;
        apply (closing_trans _ _ _ [] _ Hbody Hc).
Qed.

End Closing.

(** ** The startup sequence *)

Lemma bind_get {A B} (f : World -> A) (k : A -> M B) (w : World) :
  bind (get f) k w = k (f w) w.
Proof. reflexivity. Qed.

Lemma bind_modify {B} (g : World -> World) (k : unit -> M B) (w : World) :
  bind (modify g) k w = k tt (g w).
Proof. reflexivity. Qed.

Lemma bind_lift_ok {A B} (a : A) (k : A -> M B) (w : World) :
  bind (lift (Ok a)) k w = k a w.
Proof. reflexivity. Qed.

Lemma bind_extern_ok {A B} (c : call) (answer : nat -> result A) (a : A)
  (k : A -> M B) (w : World) :
  answer (List.length (trace w)) = Ok a ->
  bind (extern c answer) k w = k a (record_call c w).
Proof. intro Ha. unfold bind, extern. now rewrite Ha. Qed.

Lemma bind_config_ok {B} (key : string) (c : dict) (v : json)
  (k : json -> M B) (w : World) :
  configuration w = JDict c ->
  dict_get c key = Some v ->
  bind (config key) k w = k v w.
Proof.
  intros Hc Hv. unfold config, bind, get, lift. rewrite Hc. cbn [py_getitem].
  now rewrite Hv.
Qed.

Lemma bind_config_str_ok {B} (key : string) (c : dict) (s : string)
  (k : string -> M B) (w : World) :
  configuration w = JDict c ->
  dict_get c key = Some (JStr s) ->
  bind (config_str key) k w = k s w.
Proof.
  intros Hc Hv. unfold config_str, config, bind, get, lift. rewrite Hc.
  cbn [py_getitem]. now rewrite Hv.
Qed.

Lemma bind_ret {A B} (a : A) (k : A -> M B) (w : World) :
  bind (ret a) k w = k a w.
Proof. reflexivity. Qed.

Lemma bind_print {B} (l : line) (k : unit -> M B) (w : World) :
  bind (print l) k w = k tt (record_line l w).
Proof. reflexivity. Qed.

Lemma bind_bind {A B C} (m : M A) (f : A -> M B) (g : B -> M C) (w : World) :
  bind (bind m f) g w = bind m (fun x => bind (f x) g) w.
Proof. unfold bind. destruct (m w) as [[a | e] w1]; reflexivity. Qed.

Lemma bind_config_str_raise {B} (key : string) (c : dict) (v : json)
  (k : string -> M B) (w : World) :
  configuration w = JDict c ->
  dict_get c key = Some v ->
  (forall s, v <> JStr s) ->
  bind (config_str key) k w = (Raise TypeError, w).
Proof.
  intros Hc Hv Hnot. unfold config_str, config, bind, get, lift. rewrite Hc.
  cbn [py_getitem]. rewrite Hv.
  destruct v; try reflexivity. now destruct (Hnot s).
Qed.

(** The world as a record of its fields. *)
Ltac wnorm :=
  cbn [configuration telemetry config_file_name last_publish trace stdout
       record_line record_call set_telemetry set_configuration
       set_config_file_name set_last_publish py_str_operand].

Ltac norm := wnorm; rewrite ?length_app; cbn [List.length].

(** One statement of a straight-line program. *)
Ltac run1 :=
  first
    [ rewrite bind_bind
    | rewrite bind_ret
    | rewrite bind_print
    | rewrite bind_modify
    | rewrite bind_get
    | rewrite bind_lift_ok
    | erewrite bind_config_str_ok by (norm; eauto)
    | erewrite bind_config_ok by (norm; eauto)
    | erewrite bind_extern_ok by (norm; eauto) ].

Ltac run := repeat (run1; wnorm).

Ltac unary_index H :=
  repeat match type of H with
         | context [(?n + 2)%nat] =>
             replace (n + 2)%nat with (n + 1 + 1)%nat in H by lia
         | context [(?n + 3)%nat] =>
             replace (n + 3)%nat with (n + 1 + 1 + 1)%nat in H by lia
         | context [(?n + 5)%nat] =>
             replace (n + 5)%nat with (n + 1 + 1 + 1 + 1 + 1)%nat in H by lia
         | context [(?n + 6)%nat] =>
             replace (n + 6)%nat
               with (n + 1 + 1 + 1 + 1 + 1 + 1)%nat in H by lia
         | context [(?n + 8)%nat] =>
             replace (n + 8)%nat
               with (n + 1 + 1 + 1 + 1 + 1 + 1 + 1 + 1)%nat in H by lia
         | context [(?n + 9)%nat] =>
             replace (n + 9)%nat
               with (n + 1 + 1 + 1 + 1 + 1 + 1 + 1 + 1 + 1)%nat in H by lia
         | context [(?n + 10)%nat] =>
             replace (n + 10)%nat
               with (n + 1 + 1 + 1 + 1 + 1 + 1 + 1 + 1 + 1 + 1)%nat in H by lia
         end.

Section Startup.
Variable E : Env.

Lemma get_ip_ok (w : World) (ip : string) :
  env_effect E (List.length (trace w)) SocketNew = Ok tt ->
  env_effect E (List.length (trace w) + 1) (SockConnect "8.8.8.8" 80)
  = Ok tt ->
  env_getsockname E (List.length (trace w) + 1 + 1) = Ok ip ->
  get_ip E w
  = (Ok ip,
     record_call SockClose
       (record_call SockGetsockname
          (record_call (SockConnect "8.8.8.8" 80) (record_call SocketNew w)))).
Proof.
  intros Hnew Hconn Hname.
  unfold get_ip, try_finally, try_except, bind, extern, modify.
  rewrite Hnew. norm. rewrite Hconn. norm. now rewrite Hname.
Qed.

(** The startup sequence stops at line 149 whenever the broker port of the
    configuration file is not a string. *)
Lemma startup_needs_a_port_string (argv : list string) (w : World) (c : dict)
  (address : string) (port : json) (ip host : string) :
  env_load E (List.length (trace w)) (chosen_file argv w) = Ok (JDict c) ->
  dict_get c "brokerAddress" = Some (JStr address) ->
  dict_get c "brokerPort" = Some port ->
  (forall s, port <> JStr s) ->
  env_effect E (List.length (trace w) + 1) SocketNew = Ok tt ->
  env_effect E (List.length (trace w) + 2) (SockConnect "8.8.8.8" 80)
  = Ok tt ->
  env_getsockname E (List.length (trace w) + 3) = Ok ip ->
  env_gethostname E (List.length (trace w) + 5) = Ok host ->
  outcome (startup E argv) w = Raise TypeError
  /\ calls_of (startup E argv) w
     = [OpenLoad (chosen_file argv w); SocketNew; SockConnect "8.8.8.8" 80;
        SockGetsockname; SockClose; GetHostname; DatetimeNow; DatetimeNow].
Proof.
  intros Hload Haddr Hport Hnot Hnew Hconn Hname Hhost.
  unary_index Hconn. unary_index Hname. unary_index Hhost.
  assert (Hrun : exists w',
            startup E argv w = (Raise TypeError, w')
            /\ trace w'
               = (trace w
                  ++ [OpenLoad (chosen_file argv w); SocketNew;
                      SockConnect "8.8.8.8" 80; SockGetsockname; SockClose;
                      GetHostname; DatetimeNow; DatetimeNow])%list).
  { unfold startup, chosen_file, set_telemetry_item, get_timestamp in *.
    destruct (nth_error argv 1) as [name |];
      destruct (dict_get c "notes") as [notes |] eqn:Hnotes;
      eexists; (split; [| shelve]).
    all: run.
    all: erewrite (bind_ok (get_ip E)) by (apply get_ip_ok; norm; eassumption).
    all: wnorm; run.
    all: cbn [py_contains]; unfold dict_mem; rewrite Hnotes.
    all: run.
    all: cbn [py_getitem]; rewrite !dict_get_set_other by discriminate;
      rewrite dict_get_set_same.
    all: run.
    all: erewrite bind_config_str_raise by (wnorm; eauto).
    all: reflexivity.
    Unshelve.
    all: wnorm; rewrite <- !app_assoc; reflexivity. }
  destruct Hrun as [w' [Hrun Htrace]].
  unfold calls_of, outcome, after. rewrite Hrun. cbn [fst snd].
  rewrite Htrace, skipn_app, skipn_all, Nat.sub_diag. auto.
Qed.

(** C4, as the code has it.  With a configuration whose broker address,
    broker port and topics are strings, the port being one that [int]
    accepts, and an environment whose calls succeed, the startup sequence
    runs to its end without raising: it loads the configuration, resolves
    the IP address and the host name, fills in the static fields of the
    telemetry record, connects, and then subscribes to the control topic. *)
Theorem startup_completes (argv : list string) (w : World) (c : dict)
  (address port publish_topic control_topic ip host : string)
  (qos interval : json) (p rc : Z) :
  env_load E (List.length (trace w)) (chosen_file argv w) = Ok (JDict c) ->
  dict_get c "brokerAddress" = Some (JStr address) ->
  dict_get c "brokerPort" = Some (JStr port) ->
  dict_get c "publishTopic" = Some (JStr publish_topic) ->
  dict_get c "controlTopic" = Some (JStr control_topic) ->
  dict_get c "brokerQoS" = Some qos ->
  dict_get c "publishInterval" = Some interval ->
  env_int_of_str E port = Some p ->
  env_effect E (List.length (trace w) + 1) SocketNew = Ok tt ->
  env_effect E (List.length (trace w) + 2) (SockConnect "8.8.8.8" 80)
  = Ok tt ->
  env_getsockname E (List.length (trace w) + 3) = Ok ip ->
  env_gethostname E (List.length (trace w) + 5) = Ok host ->
  env_effect E (List.length (trace w) + 8) (Connect (JStr address) p)
  = Ok tt ->
  env_subscribe E (List.length (trace w) + 9)
    (Subscribe (JStr control_topic) qos) = Ok rc ->
  env_effect E (List.length (trace w) + 10) LoopStart = Ok tt ->
  outcome (startup E argv) w = Ok tt
  /\ calls_of (startup E argv) w
     = [OpenLoad (chosen_file argv w); SocketNew; SockConnect "8.8.8.8" 80;
        SockGetsockname; SockClose; GetHostname; DatetimeNow; DatetimeNow;
        Connect (JStr address) p; Subscribe (JStr control_topic) qos;
        LoopStart]
  /\ configuration (after (startup E argv) w) = JDict c
  /\ telemetry (after (startup E argv) w)
     = static_record (telemetry w) c ip host
         (env_strftime E (List.length (trace w) + 6))
         (JStr address) (JStr port).
Proof.
  intros Hload Haddr Hport Hptopic Hctopic Hqos Hinterval Hint
    Hnew Hconn Hname Hhost Hconnect Hsub Hstart.
  unary_index Hconn. unary_index Hname. unary_index Hhost.
  unary_index Hconnect. unary_index Hsub. unary_index Hstart.
  replace (List.length (trace w) + 6)%nat
    with (List.length (trace w) + 1 + 1 + 1 + 1 + 1 + 1)%nat by lia.
  assert (Hrun : exists w',
            startup E argv w = (Ok tt, w')
            /\ trace w'
               = (trace w
                  ++ [OpenLoad (chosen_file argv w); SocketNew;
                      SockConnect "8.8.8.8" 80; SockGetsockname; SockClose;
                      GetHostname; DatetimeNow; DatetimeNow;
                      Connect (JStr address) p;
                      Subscribe (JStr control_topic) qos; LoopStart])%list
            /\ configuration w' = JDict c
            /\ telemetry w'
               = static_record (telemetry w) c ip host
                   (env_strftime E
                      (List.length (trace w) + 1 + 1 + 1 + 1 + 1 + 1))
                   (JStr address) (JStr port)).
  { unfold startup, chosen_file, static_record, set_telemetry_item,
      get_timestamp in *.
    destruct (nth_error argv 1) as [name |];
      destruct (dict_get c "notes") as [notes |] eqn:Hnotes;
      destruct (rc =? 0) eqn:Hrc;
      eexists; (split; [| shelve]).
    all: run.
    all: erewrite (bind_ok (get_ip E)) by (apply get_ip_ok; norm; eassumption).
    all: wnorm; run.
    all: cbn [py_contains]; unfold dict_mem; rewrite Hnotes.
    all: run.
    all: cbn [py_getitem]; rewrite !dict_get_set_other by discriminate;
      rewrite dict_get_set_same.
    all: run.
    all: cbn [py_int]; rewrite Hint.
    all: run.
    all: rewrite Hrc.
    all: run.
    all: unfold extern; norm; rewrite Hstart; reflexivity.
    Unshelve.
    all: wnorm; rewrite <- !app_assoc; auto. }
  destruct Hrun as [w' [Hrun [Htrace [Hc Ht]]]].
  unfold calls_of, outcome, after. rewrite Hrun. cbn [fst snd].
  rewrite Htrace, skipn_app, skipn_all, Nat.sub_diag. auto.
Qed.

End Startup.

(** ** The theorems on the sample inputs *)

(** The value test of line 57 can pass and the assignment of line 59 be
    reached: with an interval written as a string, line 58 prints and the
    configuration changes before line 60 raises. *)
Example change_interval_reaches_assignment :
  on_message quiet_env (change_interval 20) string_interval_world
  = (Raise TypeError,
     set_configuration (JDict [("publishInterval", JInt 20)])
       (record_line [Lit "Old publish interval: 10"]
          (record_line
             [Lit ("Processing command " ++ dq ++ "changeTelemetryInterval"
                   ++ dq)]
             (record_line
                [Dumps Tab
                   (JDict [("command", JStr "changeTelemetryInterval");
                           ("value", JInt 20)])]
                string_interval_world)))).
Proof. reflexivity. Qed.

(** An iteration that waits at second 1001, then one that reconnects and
    publishes at second 1005, the first reading that exceeds 994 + 10. *)
Lemma publish_when_interval_elapsed_witness :
  calls_of (while_true dropped_later_env 2) waiting_world
  = [IsConnected; TimeTime; IsConnected; Sleep 3; Reconnect; TimeTime;
     CpuTemperature; DatetimeNow;
     Publish (JStr "stats/pi")
       (sampled_record dropped_later_env (telemetry waiting_world) temp42 7)
       (JInt 1);
     TimeTime]
  /\ last_publish (after (while_true dropped_later_env 2) waiting_world)
     = 1009.
Proof.
  destruct (publish_when_interval_elapsed dropped_later_env waiting_world
              [("brokerAddress", JStr "10.0.0.2"); ("brokerPort", JStr "1883");
               ("brokerQoS", JInt 1); ("publishTopic", JStr "stats/pi");
               ("controlTopic", JStr "control/pi");
               ("publishInterval", JInt 10)]
              10 "stats/pi" (JInt 1) temp42 [true] false
              eq_refl eq_refl eq_refl eq_refl
              ltac:(repeat split; try discriminate; vm_compute; discriminate)
              ltac:(split; [reflexivity | intros _; split; reflexivity])
              eq_refl eq_refl eq_refl)
    as [_ [_ [Hcalls [_ Hlast]]]].
  split; [exact Hcalls | exact Hlast].
Defined.

(** C3 as stated fails whenever the clock moves during the publish: the
    reading compared is 1000, the one stored is 1004. *)
Lemma later_reading_is_stored : ~ stamps_compared_time quiet_env sample_world.
Proof.
  intro Hclaim. specialize (Hclaim eq_refl). vm_compute in Hclaim.
  discriminate Hclaim.
Qed.

Lemma startup_completes_witness :
  outcome (startup quiet_env ["LinuxStatsToMQTT.py"]) fresh_world = Ok tt
  /\ calls_of (startup quiet_env ["LinuxStatsToMQTT.py"]) fresh_world
     = [OpenLoad "config.json"; SocketNew; SockConnect "8.8.8.8" 80;
        SockGetsockname; SockClose; GetHostname; DatetimeNow; DatetimeNow;
        Connect (JStr "10.0.0.2") 1883;
        Subscribe (JStr "control/pi") (JInt 1); LoopStart].
Proof.
  destruct (startup_completes quiet_env ["LinuxStatsToMQTT.py"] fresh_world
              [("brokerAddress", JStr "10.0.0.2"); ("brokerPort", JStr "1883");
               ("brokerQoS", JInt 1); ("publishTopic", JStr "stats/pi");
               ("controlTopic", JStr "control/pi");
               ("publishInterval", JInt 10)]
              "10.0.0.2" "1883" "stats/pi" "control/pi" "192.168.1.7" "pi"
              (JInt 1) (JInt 10) 1883 0
              eq_refl eq_refl eq_refl eq_refl eq_refl eq_refl eq_refl eq_refl
              eq_refl eq_refl eq_refl eq_refl eq_refl eq_refl eq_refl)
    as [Hout [Hcalls _]].
  split; [exact Hout | exact Hcalls].
Defined.

(** C4 as stated fails on a configuration that follows the contract: with
    the broker port an integer, line 149 raises [TypeError]. *)
Lemma integer_port_stops_startup :
  contract_valid contract_configuration
  /\ env_load contract_env 0 "config.json" = Ok contract_configuration
  /\ ~ starts_up contract_env ["LinuxStatsToMQTT.py"] fresh_world.
Proof.
  split; [| split; [reflexivity |]].
  - exists "10.0.0.2", "stats/pi", "control/pi", 1883, 1, 10.
    repeat split; try reflexivity; lia.
  - intro Hup. vm_compute in Hup. discriminate Hup.
Qed.

Lemma interrupted_env_closes_politely : closes_politely interrupted_env.
Proof. intros n c Hc. destruct c; try discriminate Hc; reflexivity. Qed.

(** A keyboard interrupt during the first [sleep]: one run of
    [close_mqtt]. *)
Lemma close_mqtt_at_most_once_witness :
  outcome (main interrupted_env ["LinuxStatsToMQTT.py"] 5) fresh_world
  = Ok Returned
  /\ filter is_close
       (calls_of (main interrupted_env ["LinuxStatsToMQTT.py"] 5) fresh_world)
     = close_calls (JStr "control/pi").
Proof.
  exact (close_mqtt_at_most_once interrupted_env
           interrupted_env_closes_politely ["LinuxStatsToMQTT.py"] 5
           fresh_world).
Defined.

(** C5 as stated fails when the broker refuses the connection: [main]
    returns and [close_mqtt] has not run. *)
Lemma refused_connection_never_closes :
  ~ closed_exactly_once refusing_env ["LinuxStatsToMQTT.py"] 5 fresh_world.
Proof.
  intro Hclaim. destruct Hclaim as [t Ht].
  - vm_compute. discriminate.
  - vm_compute in Ht. discriminate Ht.
Qed.

Lemma reconnect_does_not_resubscribe_witness :
  calls_of (check_connection dropped_env) sample_world
  = [IsConnected; Sleep 3; Reconnect].
Proof.
  exact (proj2 (proj1 (reconnect_does_not_resubscribe dropped_env)
                  sample_world eq_refl eq_refl eq_refl)).
Defined.

(** C7 as stated fails in an environment where the first connection check
    finds the client disconnected: the reconnect succeeds and no
    [subscribe] follows it, however long the loop runs. *)
Lemma reconnect_without_subscribe :
  ~ resubscribes_after_reconnect dropped_env sample_world.
Proof.
  intro Hclaim.
  destruct (Hclaim 1%nat [IsConnected; Sleep 3]
              (skipn 3 (calls_of (while_true dropped_env 1) sample_world))
              eq_refl eq_refl)
    as [fuel' [rest' [Hcalls Hsub]]].
  destruct (grows_calls_of _ _ _
              (while_true_never_subscribes dropped_env fuel' sample_world))
    as [_ Hnone].
  rewrite Hcalls, forallb_app in Hnone.
  apply andb_true_iff in Hnone. destruct Hnone as [_ Hnone].
  cbn [forallb is_subscribe negb andb] in Hnone.
  assert (Hno : existsb is_subscribe rest' = false).
  { clear Hcalls Hsub. induction rest' as [| c l IH]; [reflexivity |].
    cbn in Hnone |- *. destruct (is_subscribe c); [discriminate |].
    now apply IH. }
  congruence.
Qed.

Example f2112_2112_value :
  f2112_2112 = S754_finite false 4644801549437397 (-41).
Proof. reflexivity. Qed.

(** ** The client identifier *)











Lemma substring_length (s : string) (i m : nat) :
  (i + m <= String.length s)%nat -> String.length (substring i m s) = m.
Proof.
  revert i m. induction s as [| c s IH]; intros i m Hlen; cbn in Hlen.
  - assert (i = 0 /\ m = 0)%nat as [-> ->] by lia. reflexivity.
  - destruct i as [| i]; destruct m as [| m]; cbn [substring String.length].
    + reflexivity.
    + f_equal. apply IH. cbn. lia.
    + apply IH. lia.
    + apply IH. lia.
Qed.

Lemma string_of_list_ascii_length (l : list ascii) :
  String.length (string_of_list_ascii l) = List.length l.
Proof. induction l as [| c l IH]; cbn; [reflexivity | now rewrite IH]. Qed.

Lemma colon_pairs_shape (s : string) :
  (12 <= String.length s)%nat ->
  String.length (colon_pairs s) = 17%nat
  /\ forall i, In i [2; 5; 8; 11; 14]%nat ->
               String.get i (colon_pairs s) = Some ":"%char.
Proof.
  intro Hlen.
  do 12 (destruct s as [| ? s]; [cbn in Hlen; lia |]). clear Hlen.
  destruct s; (split; [reflexivity |]);
    intros i Hi; cbn in Hi;
    repeat (destruct Hi as [<- | Hi]; [reflexivity |]); destruct Hi.
Qed.

(** X2.  The client identifier always has seventeen characters, six pairs
    separated by colons, also when the node number has more than twelve
    hexadecimal digits: the slices of line 22 stop at the twelfth. *)
Theorem format_mac_shape (node : Z) :
  0 <= node ->
  String.length (format_mac node) = 17%nat
  /\ forall i, In i [2; 5; 8; 11; 14]%nat ->
               String.get i (format_mac node) = Some ":"%char.
Proof.
  intros _. apply colon_pairs_shape. unfold format_012X.
  rewrite string_of_list_ascii_length, length_app, repeat_length, length_map.
  lia.
Qed.

(** ** The callbacks that only print *)

(** X3.  The publish callback does nothing, whatever the message identifier:
    no integer equals [2112.2112], so the branch of line 76 is never
    taken. *)
Theorem on_publish_does_nothing (mid : Z) (w : World) :
  on_publish mid w = (Ok tt, w).
Proof.
  unfold on_publish.
  replace (py_eq (JInt mid) (JFloat f2112_2112)) with false; [reflexivity |].
  symmetry. cbn [py_eq as_num num_eqb].
  unfold f2112_2112, float_compare_Z, cond_Zopp.
  change (0 <=? -41) with false. cbv iota.
  destruct (Z.compare_spec 4644801549437397 (mid * 2 ^ (- -41)))
    as [Heq | _ | _]; try reflexivity.
  change (2 ^ (- -41)) with 2199023255552 in Heq. lia.
Qed.

(** ** More on the message handler *)

Section Commands.
Variable E : Env.

(** X4.  A [publishTelemetry] command samples the sensor, publishes the
    sampled record and sets [last_publish] to the reading of the clock that
    follows the publish; the configuration is unchanged. *)
Theorem publish_telemetry_command
  (w : World) (c d : dict) (topic : string) (qos : json) (temp : spec_float) :
  dict_get d "command" = Some (JStr "publishTelemetry") ->
  configuration w = JDict c ->
  dict_get c "publishTopic" = Some (JStr topic) ->
  dict_get c "brokerQoS" = Some qos ->
  env_cpu_temp E (List.length (trace w)) = Ok temp ->
  env_effect E (List.length (trace w) + 2)
    (Publish (JStr topic)
       (sampled_record E (telemetry w) temp (List.length (trace w) + 1)) qos)
  = Ok tt ->
  outcome (on_message E (Parsed (JDict d))) w = Ok tt
  /\ configuration (after (on_message E (Parsed (JDict d))) w)
     = configuration w
  /\ telemetry (after (on_message E (Parsed (JDict d))) w)
     = sampled_record E (telemetry w) temp (List.length (trace w) + 1)
  /\ calls_of (on_message E (Parsed (JDict d))) w
     = [CpuTemperature; DatetimeNow;
        Publish (JStr topic)
          (sampled_record E (telemetry w) temp (List.length (trace w) + 1))
          qos;
        TimeTime]
  /\ last_publish (after (on_message E (Parsed (JDict d))) w)
     = env_time E (List.length (trace w) + 3).
Proof.
  intros Hcmd Hc Htopic Hqos Htemp Hpub.
  assert (Hrun : exists w',
            on_message E (Parsed (JDict d)) w = (Ok tt, w')
            /\ configuration w' = configuration w
            /\ telemetry w'
               = sampled_record E (telemetry w) temp
                   (List.length (trace w) + 1)
            /\ trace w'
               = (trace w
                  ++ [CpuTemperature; DatetimeNow;
                      Publish (JStr topic)
                        (sampled_record E (telemetry w) temp
                           (List.length (trace w) + 1)) qos;
                      TimeTime])%list
            /\ last_publish w' = env_time E (List.length (trace w) + 3)).
  { unfold on_message, json_loads, sampled_record in *. eexists. split.
    - run. cbn [py_contains]. unfold dict_mem. rewrite Hcmd. run.
      cbn [py_getitem]. rewrite Hcmd. run.
      change (String.eqb "publishTelemetry" "publishTelemetry") with true.
      cbv iota.
      erewrite (bind_ok (poll_telemetry E))
        by (apply poll_telemetry_ok; wnorm; exact Htemp).
      erewrite (bind_ok (publish_telemetry E)).
      2:{ apply (publish_telemetry_ok E _ c topic qos); wnorm; auto.
          rewrite !length_app. cbn [List.length].
          replace (List.length (trace w) + 1 + 1)%nat
            with (List.length (trace w) + 2)%nat by lia.
          exact Hpub. }
      unfold epoch_time. run. reflexivity.
    - wnorm. rewrite !length_app. cbn [List.length].
      replace (List.length (trace w) + 1 + 1 + 1)%nat
        with (List.length (trace w) + 3)%nat by lia.
      rewrite <- !app_assoc. auto. }
  destruct Hrun as [w' [Hrun [Hcfg [Htel [Htr Hlast]]]]].
  unfold calls_of, outcome, after. rewrite Hrun. cbn [fst snd].
  rewrite Htr, skipn_app, skipn_all, Nat.sub_diag. auto.
Qed.

Lemma same_last_publish_poll_telemetry :
  respects (same last_publish) (poll_telemetry E).
Proof. frame. Qed.

Lemma same_last_publish_publish_telemetry :
  respects (same last_publish) (publish_telemetry E).
Proof. frame. Qed.

(** Lines 51 to 53 and 182 to 184: [last_publish] is written by the last
    statement only. *)
Lemma sample_and_publish_commits_last (w : World) :
  outcome (poll_telemetry E ;;; publish_telemetry E ;;;
           now <- epoch_time E ;; modify (set_last_publish now)) w
  <> Ok tt ->
  last_publish (after (poll_telemetry E ;;; publish_telemetry E ;;;
                       now <- epoch_time E ;; modify (set_last_publish now)) w)
  = last_publish w.
Proof.
  pose proof (same_last_publish_poll_telemetry w) as Hpoll.
  unfold same, outcome, after, bind in *.
  destruct (poll_telemetry E w) as [[[] | e] w1]; cbn [fst snd] in *;
    [| auto].
  pose proof (same_last_publish_publish_telemetry w1) as Hpub.
  unfold same, after in Hpub.
  destruct (publish_telemetry E w1) as [[[] | e] w2]; cbn [fst snd] in *.
  - intro Hout. now destruct Hout.
  - intros _. congruence.
Qed.

Lemma scheduled_publish_commits_last (w : World) :
  outcome (scheduled_publish E) w <> Ok tt ->
  last_publish (after (scheduled_publish E) w) = last_publish w.
Proof.
  unfold scheduled_publish, epoch_time, config.
  unfold outcome, after. rewrite bind_extern_ok with (a := env_time E (List.length (trace w)))
    by reflexivity.
  rewrite bind_bind, bind_get. wnorm.
  set (w1 := record_call TimeTime w).
  change (last_publish w) with (last_publish w1).
  destruct (py_getitem (configuration w) "publishInterval") as [v | e].
  - rewrite bind_lift_ok.
    destruct (py_int_sub (env_time E (List.length (trace w))) v) as [x | e].
    + rewrite bind_lift_ok, bind_get.
      destruct (num_gt_Z x (last_publish w1)).
      * apply (sample_and_publish_commits_last w1).
      * intro Hout. now destruct Hout.
    + reflexivity.
  - reflexivity.
Qed.

Lemma on_message_commits_last (msg : payload) (w : World) :
  outcome (on_message E msg) w <> Ok tt ->
  last_publish (after (on_message E msg) w) = last_publish w.
Proof.
  unfold outcome, after, on_message.
  destruct msg as [| | message]; try reflexivity.
  unfold json_loads. step. step.
  destruct (py_contains message "command") as [[|] | e]; step;
    try reflexivity.
  destruct (py_getitem message "command") as [value | e]; step;
    try reflexivity.
  destruct value as [| b | z | f | name | l | d]; cbn [py_str_operand]; step;
    try reflexivity.
  step.
  set (w1 := record_line _ (record_line _ w)).
  change (last_publish w) with (last_publish w1).
  destruct (String.eqb name "publishTelemetry").
  { apply (sample_and_publish_commits_last w1). }
  intros _.
  destruct (String.eqb name "changeTelemetryInterval").
  { refine ((_ : respects (same last_publish) _) w1).
    unfold change_telemetry_interval. frame. }
  destruct (String.eqb name "publishStatus").
  { apply (same_last_publish_publish_telemetry w1). }
  destruct (String.eqb name "debug"); reflexivity.
Qed.

Lemma poll_telemetry_returns (w w' : World) :
  poll_telemetry E w = (Ok tt, w') ->
  trace w' = (trace w ++ [CpuTemperature])%list
  /\ last_publish w' = last_publish w.
Proof.
  unfold poll_telemetry, set_telemetry_item, bind, extern, get, lift, modify.
  destruct (env_cpu_temp E _) as [temp | e]; cbn [fst snd];
    [| discriminate].
  intro Hrun. injection Hrun as <-. auto.
Qed.

Lemma publish_telemetry_returns (w w' : World) :
  publish_telemetry E w = (Ok tt, w') ->
  exists topic body qos,
    trace w' = (trace w ++ [DatetimeNow; Publish topic body qos])%list
    /\ env_effect E (List.length (trace w) + 1) (Publish topic body qos)
       = Ok tt
    /\ last_publish w' = last_publish w.
Proof.
  unfold publish_telemetry, get_timestamp, set_telemetry_item, config, bind,
    extern, get, lift, print, modify.
  cbn [fst snd configuration telemetry trace record_call set_telemetry].
  destruct (py_getitem (configuration w) "publishTopic") as [topic | e];
    cbn beta iota; [| discriminate].
  destruct (py_getitem (configuration w) "brokerQoS") as [qos | e];
    cbn beta iota; [| discriminate].
  rewrite length_app. cbn [List.length].
  destruct (env_effect E _ _) as [[] | e] eqn:Hpub; cbn beta iota;
    [| discriminate].
  destruct (py_str_operand topic) as [s | e]; cbn beta iota;
    [| discriminate].
  intro Hrun. injection Hrun as <-.
  cbn [trace last_publish record_line record_call set_telemetry].
  rewrite <- app_assoc. do 3 eexists. split; [reflexivity | auto].
Qed.

(** Lines 51 to 53 and 182 to 184. *)
Lemma sample_and_publish_returns (w w' : World) :
  (poll_telemetry E ;;; publish_telemetry E ;;;
   now <- epoch_time E ;; modify (set_last_publish now)) w
  = (Ok tt, w') ->
  exists topic body qos,
    trace w'
    = (trace w
       ++ [CpuTemperature; DatetimeNow; Publish topic body qos; TimeTime])%list
    /\ env_effect E (List.length (trace w) + 2) (Publish topic body qos)
       = Ok tt
    /\ last_publish w' = env_time E (List.length (trace w) + 3).
Proof.
  unfold bind at 1.
  destruct (poll_telemetry E w) as [[[] | e] w1] eqn:Hpoll; [| discriminate].
  destruct (poll_telemetry_returns _ _ Hpoll) as [Htr1 _].
  unfold bind at 1.
  destruct (publish_telemetry E w1) as [[[] | e] w2] eqn:Hpub;
    [| discriminate].
  destruct (publish_telemetry_returns _ _ Hpub)
    as [topic [body [qos [Htr2 [Hanswer _]]]]].
  unfold epoch_time, bind, extern, modify. cbn [fst snd].
  intro Hrun. injection Hrun as <-.
  exists topic, body, qos.
  cbn [trace last_publish set_last_publish record_call].
  rewrite Htr2, Htr1, !length_app, <- !app_assoc in *. cbn [List.length] in *.
  replace (List.length (trace w) + 1 + 1)%nat
    with (List.length (trace w) + 2)%nat in * by lia.
  replace (List.length (trace w) + 1 + 2)%nat
    with (List.length (trace w) + 3)%nat by lia.
  auto.
Qed.

Lemma sample_and_publish_records (w : World) :
  last_publish (after (poll_telemetry E ;;; publish_telemetry E ;;;
                       now <- epoch_time E ;; modify (set_last_publish now)) w)
  = last_publish w
  \/ recorded_a_publish E
       (poll_telemetry E ;;; publish_telemetry E ;;;
        now <- epoch_time E ;; modify (set_last_publish now)) w.
Proof.
  pose proof (sample_and_publish_commits_last w) as Hfail.
  pose proof (sample_and_publish_returns w) as Hok.
  unfold recorded_a_publish, calls_of, outcome, after in *.
  destruct ((poll_telemetry E ;;; publish_telemetry E ;;;
             now <- epoch_time E ;; modify (set_last_publish now)) w)
    as [[[] | e] w'].
  - right. destruct (Hok w' eq_refl) as [topic [body [qos [Htr [Hans Hl]]]]].
    cbn [fst snd]. split; [reflexivity |].
    exists [CpuTemperature; DatetimeNow], topic, body, qos.
    rewrite Htr, skipn_app, skipn_all, Nat.sub_diag. cbn [List.length].
    replace (List.length (trace w) + 2 + 1)%nat
      with (List.length (trace w) + 3)%nat by lia.
    auto.
  - left. apply Hfail. discriminate.
Qed.

Lemma scheduled_publish_records (w : World) :
  last_publish (after (scheduled_publish E) w) = last_publish w
  \/ recorded_a_publish E (scheduled_publish E) w.
Proof.
  pose proof (sample_and_publish_commits_last (record_call TimeTime w))
    as Hfail.
  pose proof (sample_and_publish_returns (record_call TimeTime w)) as Hok.
  unfold recorded_a_publish, calls_of, scheduled_publish.
  set (sample_and_publish :=
         poll_telemetry E ;;; publish_telemetry E ;;;
         now <- epoch_time E ;; modify (set_last_publish now)) in *.
  unfold epoch_time, config, outcome, after in *.
  rewrite bind_extern_ok with (a := env_time E (List.length (trace w)))
    by reflexivity.
  rewrite bind_bind, bind_get. wnorm.
  destruct (py_getitem (configuration w) "publishInterval") as [v | e];
    [| left; reflexivity].
  rewrite bind_lift_ok.
  destruct (py_int_sub (env_time E (List.length (trace w))) v) as [x | e];
    [| left; reflexivity].
  rewrite bind_lift_ok, bind_get. wnorm.
  destruct (num_gt_Z x (last_publish w)); [| left; reflexivity].
  cbn [trace last_publish record_call] in Hfail, Hok.
  destruct (sample_and_publish (record_call TimeTime w)) as [[[] | e] w'].
  - right. destruct (Hok w' eq_refl) as [topic [body [qos [Htr [Hans Hl]]]]].
    rewrite length_app in Hans, Hl. cbn [List.length] in Hans, Hl.
    cbn [fst snd]. split; [reflexivity |].
    exists [TimeTime; CpuTemperature; DatetimeNow], topic, body, qos.
    rewrite Htr, <- !app_assoc, skipn_app, skipn_all, Nat.sub_diag.
    cbn [List.length].
    replace (List.length (trace w) + 3)%nat
      with (List.length (trace w) + 1 + 2)%nat by lia.
    replace (List.length (trace w) + 1 + 2 + 1)%nat
      with (List.length (trace w) + 1 + 3)%nat by lia.
    auto.
  - left. apply Hfail. discriminate.
Qed.

Lemma on_message_records (msg : payload) (w : World) :
  last_publish (after (on_message E msg) w) = last_publish w
  \/ recorded_a_publish E (on_message E msg) w.
Proof.
  unfold recorded_a_publish, calls_of, outcome, after, on_message.
  destruct msg as [| | message]; try (left; reflexivity).
  unfold json_loads. step. step.
  destruct (py_contains message "command") as [[|] | e]; step;
    try (left; reflexivity).
  destruct (py_getitem message "command") as [value | e]; step;
    try (left; reflexivity).
  destruct value as [| b | z | f | name | l | d]; cbn [py_str_operand]; step;
    try (left; reflexivity).
  step.
  set (w1 := record_line _ (record_line _ w)).
  change (last_publish w) with (last_publish w1).
  change (trace w) with (trace w1).
  destruct (String.eqb name "publishTelemetry").
  { exact (sample_and_publish_records w1). }
  left.
  destruct (String.eqb name "changeTelemetryInterval").
  { refine ((_ : respects (same last_publish) _) w1).
    unfold change_telemetry_interval. frame. }
  destruct (String.eqb name "publishStatus").
  { apply (same_last_publish_publish_telemetry w1). }
  destruct (String.eqb name "debug"); reflexivity.
Qed.

(** X5.  [last_publish] is only written after a publish that worked.  After
    any run of the scheduled path of the loop or of the message handler,
    either [last_publish] has the value it had before, or the run has
    returned normally, its last two calls are a [publish] that the
    environment answered without raising and a reading of the clock, and
    [last_publish] is that reading.  In particular a run that ends with an
    exception (a sensor that cannot be read, a publish that raises, a
    missing key) leaves [last_publish] alone. *)
Theorem last_publish_follows_a_publish :
  (forall w,
     last_publish (after (scheduled_publish E) w) = last_publish w
     \/ recorded_a_publish E (scheduled_publish E) w)
  /\ (forall msg w,
        last_publish (after (on_message E msg) w) = last_publish w
        \/ recorded_a_publish E (on_message E msg) w)
  /\ (forall w,
        outcome (scheduled_publish E) w <> Ok tt ->
        last_publish (after (scheduled_publish E) w) = last_publish w)
  /\ (forall msg w,
        outcome (on_message E msg) w <> Ok tt ->
        last_publish (after (on_message E msg) w) = last_publish w).
Proof.
  split; [| split; [| split]].
  - apply scheduled_publish_records.
  - apply on_message_records.
  - apply scheduled_publish_commits_last.
  - apply on_message_commits_last.
Qed.

Lemma change_telemetry_interval_never_completes (message : json) (w : World) :
  outcome (change_telemetry_interval message) w = Ok tt ->
  configuration (after (change_telemetry_interval message) w)
  = configuration w.
Proof.
  unfold outcome, after, change_telemetry_interval, config, bind, get, lift,
    print, modify, ret.
  destruct (py_getitem (configuration w) "publishInterval") as [old | e];
    [| discriminate].
  destruct (py_getitem message "value") as [new | e]; [| discriminate].
  destruct (py_eq old new); cbn [negb fst snd]; [reflexivity |].
  destruct (py_gt_int new 4) as [[|] | e] eqn:Hgt; cbn [fst snd];
    try reflexivity; try discriminate.
  destruct (py_str_operand old) as [s | e]; cbn [fst snd]; [| discriminate].
  cbn [configuration record_line].
  destruct (configuration w) as [| | | | | | c]; cbn [py_setitem fst snd];
    try discriminate.
  cbn [configuration set_configuration py_getitem].
  rewrite dict_get_set_same. cbn [fst snd].
  destruct new; cbn in Hgt |- *; discriminate.
Qed.

(** X6.  No message changes the configuration and lets the handler return:
    whenever [on_message] returns normally the configuration is the one it
    started with.  The assignment of line 59 is always followed by the
    [TypeError] of line 60, whose operand passed the numeric test of
    line 57 and so is not a string. *)
Theorem handler_returns_with_configuration_unchanged
  (msg : payload) (w : World) :
  outcome (on_message E msg) w = Ok tt ->
  configuration (after (on_message E msg) w) = configuration w.
Proof.
  unfold outcome, after, on_message.
  destruct msg as [| | message]; try reflexivity.
  unfold json_loads. step. step.
  destruct (py_contains message "command") as [[|] | e]; step;
    try reflexivity.
  destruct (py_getitem message "command") as [value | e]; step;
    try reflexivity.
  destruct value as [| b | z | f | name | l | d]; cbn [py_str_operand]; step;
    try reflexivity.
  step.
  set (w1 := record_line _ (record_line _ w)).
  change (configuration w) with (configuration w1).
  destruct (String.eqb name "publishTelemetry").
  { intros _. refine ((_ : respects (same configuration) _) w1). frame. }
  destruct (String.eqb name "changeTelemetryInterval").
  { apply (change_telemetry_interval_never_completes message w1). }
  intros _.
  destruct (String.eqb name "publishStatus").
  { apply (same_configuration_publish_telemetry E w1). }
  destruct (String.eqb name "debug"); reflexivity.
Qed.

(** X7.  A message whose [command] is not a string makes line 49 raise
    [TypeError]: the handler has printed the message and nothing else has
    changed. *)
Theorem command_must_be_a_string (w : World) (d : dict) (v : json) :
  dict_get d "command" = Some v ->
  (forall s, v <> JStr s) ->
  on_message E (Parsed (JDict d)) w
  = (Raise TypeError, record_line [Dumps Tab (JDict d)] w).
Proof.
  intros Hcmd Hnot. unfold on_message, json_loads. run.
  cbn [py_contains]. unfold dict_mem. rewrite Hcmd. run.
  cbn [py_getitem]. rewrite Hcmd. run.
  destruct v; try reflexivity. now destruct (Hnot s).
Qed.

(** X8.  A [changeTelemetryInterval] command without a [value] field makes
    line 56 raise [KeyError]; the interval is unchanged and nothing but the
    output has changed. *)
Theorem change_interval_needs_a_value (w : World) (c d : dict) (old : json) :
  dict_get d "command" = Some (JStr "changeTelemetryInterval") ->
  dict_get d "value" = None ->
  configuration w = JDict c ->
  dict_get c "publishInterval" = Some old ->
  on_message E (Parsed (JDict d)) w
  = (Raise (KeyError "value"),
     record_line
       [Lit ("Processing command " ++ dq ++ "changeTelemetryInterval" ++ dq)]
       (record_line [Dumps Tab (JDict d)] w)).
Proof.
  intros Hcmd Hvalue Hc Hold.
  unfold on_message, json_loads, change_telemetry_interval. run.
  cbn [py_contains]. unfold dict_mem. rewrite Hcmd. run.
  cbn [py_getitem]. rewrite Hcmd. run.
  change (String.eqb "changeTelemetryInterval" "publishTelemetry") with false.
  change (String.eqb "changeTelemetryInterval" "changeTelemetryInterval")
    with true.
  cbv iota. erewrite bind_config_ok by (wnorm; eauto).
  cbn [py_getitem]. now rewrite Hvalue.
Qed.

End Commands.

(** ** The identity fields of the telemetry record *)

#[export] Instance same_identity_Step : Step same_identity.
Proof.
  split; unfold same_identity.
  - reflexivity.
  - intros a b c Hab Hbc k H1 H2. now rewrite Hbc, Hab.
Qed.

(** The leaves of a walk for [same_identity]: an assignment to [cpuTemp] or
    to [timeStamp], or a step that leaves the record alone. *)
Ltac identity_leaves :=
  first
    [ apply respects_modify; intros ? ? ? ?; reflexivity
    | apply respects_extern; intros ? ? ? ?; reflexivity
    | apply respects_modify; intros ? ? ? ?;
      cbn [telemetry set_telemetry]; apply dict_get_set_other; assumption ].

(** The leaves of a walk for the [macAddress] field. *)
Ltac mac_leaves :=
  first
    [ apply respects_modify; intro; reflexivity
    | apply respects_extern; intro; reflexivity
    | apply respects_modify; intro; unfold same;
      cbn [telemetry set_telemetry]; apply dict_get_set_other; discriminate ].

Ltac unfold_program :=
  unfold main, main_body, main_handlers, startup, scheduled_publish,
    check_connection, loop_iteration, close_mqtt, on_message,
    change_telemetry_interval, json_loads, publish_telemetry, poll_telemetry,
    on_connect, on_disconnect, on_publish, get_ip, epoch_time, get_timestamp,
    set_telemetry_item, config_str, config, print.

Section Identity.
Variable E : Env.

Lemma same_identity_loop_iteration :
  respects same_identity (loop_iteration E).
Proof. unfold_program. walk; identity_leaves. Qed.

Lemma same_identity_while_true (fuel : nat) :
  respects same_identity (while_true E fuel).
Proof.
  induction fuel as [| fuel IH]; cbn [while_true].
  - walk.
  - apply respects_bind;
      [typeclasses eauto | apply same_identity_loop_iteration |].
    intros []; [exact IH | walk].
Qed.

(** X9.  Once the startup sequence has filled in the telemetry record, only
    its [cpuTemp] and [timeStamp] fields are ever written: every other
    field (MAC address, host, IP address, broker address and port, notes)
    reads the same after any run of the message handler, any number of
    loop iterations, [close_mqtt] and the three callbacks. *)
Theorem identity_fields_are_kept (k : string) :
  k <> "cpuTemp" -> k <> "timeStamp" ->
  (forall msg w,
     dict_get (telemetry (after (on_message E msg) w)) k
     = dict_get (telemetry w) k)
  /\ (forall fuel w,
        dict_get (telemetry (after (while_true E fuel) w)) k
        = dict_get (telemetry w) k)
  /\ (forall w,
        dict_get (telemetry (after (close_mqtt E) w)) k
        = dict_get (telemetry w) k)
  /\ (forall rc w,
        dict_get (telemetry (after (on_connect rc) w)) k
        = dict_get (telemetry w) k
        /\ dict_get (telemetry (after (on_disconnect rc) w)) k
           = dict_get (telemetry w) k
        /\ dict_get (telemetry (after (on_publish rc) w)) k
           = dict_get (telemetry w) k).
Proof.
  intros H1 H2.
  assert (Hmsg : forall msg, respects same_identity (on_message E msg))
    by (intro msg; unfold_program; walk; identity_leaves).
  assert (Hclose : respects same_identity (close_mqtt E))
    by (unfold_program; walk; identity_leaves).
  assert (Hcb : forall rc,
            respects same_identity (on_connect rc)
            /\ respects same_identity (on_disconnect rc)
            /\ respects same_identity (on_publish rc))
    by (intro rc; repeat split; unfold_program; walk; identity_leaves).
  split; [| split; [| split]].
  - intros msg w. now apply Hmsg.
  - intros fuel w. now apply same_identity_while_true.
  - intro w. now apply Hclose.
  - intros rc w. destruct (Hcb rc) as [Hc [Hd Hp]].
    repeat split; [apply Hc | apply Hd | apply Hp]; assumption.
Qed.

Lemma same_mac_loop_iteration :
  respects (same (fun w => dict_get (telemetry w) "macAddress"))
    (loop_iteration E).
Proof. unfold_program. walk; mac_leaves. Qed.

Lemma same_mac_while_true (fuel : nat) :
  respects (same (fun w => dict_get (telemetry w) "macAddress"))
    (while_true E fuel).
Proof.
  induction fuel as [| fuel IH]; cbn [while_true].
  - walk.
  - apply respects_bind; [typeclasses eauto | apply same_mac_loop_iteration |].
    intros []; [exact IH | walk].
Qed.

(** X10.  Nothing in [main] writes the [macAddress] field, the startup
    sequence included: after the module initialisation for the node number
    [node], the field holds the formatted node number for as long as [main]
    runs and however it ends. *)
Theorem mac_address_is_kept (node : Z) (argv : list string) (fuel : nat) :
  dict_get (telemetry (after (main E argv fuel) (module_init node)))
    "macAddress"
  = Some (JStr (format_mac node)).
Proof.
  assert (Hmain : respects (same (fun w => dict_get (telemetry w) "macAddress"))
                    (main E argv fuel)).
  { unfold main, main_body. apply respects_try_except.
    - typeclasses eauto.
    - apply respects_bind; [typeclasses eauto | | intro].
      + unfold_program. walk; mac_leaves.
      + apply same_mac_while_true.
    - intros e handler Hh. destruct e; cbn in Hh; try discriminate Hh;
        injection Hh as <-; unfold_program; walk; mac_leaves. }
  now rewrite (Hmain (module_init node)).
Qed.

End Identity.

(** ** Pacing of the reconnect attempts *)

Lemma paced_weaken (l : list call) :
  paced false l = true -> paced true l = true.
Proof.
  destruct l as [| c l]; [reflexivity |].
  destruct c; cbn; auto. discriminate.
Qed.

Lemma paced_app (slept : bool) (l1 l2 : list call) :
  paced slept l1 = true -> paced false l2 = true ->
  paced slept (l1 ++ l2) = true.
Proof.
  revert slept. induction l1 as [| c l1 IH]; intros slept H1 H2.
  - cbn. destruct slept; [now apply paced_weaken | exact H2].
  - destruct c; cbn in H1 |- *; try (now apply IH).
    apply andb_true_iff in H1. destruct H1 as [-> H1]. cbn. now apply IH.
Qed.

(** What [paced] says, in terms of the position of a [reconnect]. *)
Lemma paced_spec (l before rest : list call) (slept : bool) :
  paced slept l = true ->
  l = (before ++ Reconnect :: rest)%list ->
  (before = [] /\ slept = true)
  \/ exists earlier, before = (earlier ++ [Sleep 3])%list.
Proof.
  revert slept before. induction l as [| c l IH]; intros slept before Hp Hl.
  - destruct before; discriminate Hl.
  - destruct before as [| b before].
    + injection Hl as -> ->. cbn in Hp. apply andb_true_iff in Hp.
      left. now destruct Hp.
    + injection Hl as -> ->. right.
      assert (Hnext : exists s, paced s (before ++ Reconnect :: rest) = true
                                /\ (s = true -> b = Sleep 3)).
      { destruct b; cbn in Hp;
          try (exists false; split; [exact Hp | discriminate]).
        - exists (seconds =? 3). split; [exact Hp |].
          intro Hs. apply Z.eqb_eq in Hs. now subst.
        - apply andb_true_iff in Hp. exists false.
          split; [now destruct Hp | discriminate]. }
      destruct Hnext as [s [Hs Hb]].
      destruct (IH s before Hs eq_refl) as [[-> ->] | [earlier ->]].
      * exists []. now rewrite Hb.
      * exists (b :: earlier). reflexivity.
Qed.

#[export] Instance grows_paced_Step : Step grows_paced.
Proof.
  split; unfold grows_paced.
  - intro w. exists []. now rewrite app_nil_r.
  - intros a b c [l1 [H1 P1]] [l2 [H2 P2]]. exists (l1 ++ l2)%list. split.
    + now rewrite H2, H1, app_assoc.
    + now apply paced_app.
Qed.

(** The leaves of a walk for [grows_paced]: any call but [reconnect], or a
    step that makes no call. *)
Ltac paced_leaves :=
  first
    [ apply respects_modify; intro; exists [];
      split; [cbn; now rewrite app_nil_r | reflexivity]
    | apply respects_extern; intro; eexists [_];
      split; [reflexivity | reflexivity]
    | apply respects_modify; intro; eexists [_];
      split; [reflexivity | reflexivity] ].

Section Pacing.
Variable E : Env.

Lemma close_mqtt_paced : respects grows_paced (close_mqtt E).
Proof. unfold_program. walk; paced_leaves. Qed.

(** Lines 173 and 174. *)
Lemma sleep_then_reconnect_paced :
  respects grows_paced
    (extern (Sleep 3) (fun n => env_effect E n (Sleep 3)) ;;;
     extern Reconnect (fun n => env_effect E n Reconnect) ;;;
     ret Next).
Proof.
  intro w. unfold after, bind, extern, ret.
  destruct (env_effect E _ (Sleep 3)) as [[] | e]; cbn [fst snd].
  - destruct (env_effect E _ Reconnect) as [[] | e]; cbn [fst snd];
      exists [Sleep 3; Reconnect]; cbn; now rewrite <- app_assoc.
  - exists [Sleep 3]. auto.
Qed.

Lemma check_connection_paced : respects grows_paced (check_connection E).
Proof.
  unfold check_connection.
  apply respects_bind; [typeclasses eauto | paced_leaves | intro connected].
  destruct (negb connected); [| walk].
  apply respects_try_except;
    [typeclasses eauto | apply sleep_then_reconnect_paced |].
  intros e handler Hh. destruct e; try discriminate Hh. injection Hh as <-.
  apply respects_bind; [typeclasses eauto | unfold print; paced_leaves |].
  intros _.
  apply respects_bind; [typeclasses eauto | apply close_mqtt_paced |].
  intros _. walk.
Qed.

Lemma loop_iteration_paced : respects grows_paced (loop_iteration E).
Proof.
  unfold loop_iteration.
  apply respects_bind; [typeclasses eauto | apply check_connection_paced |].
  intros []; [| walk].
  unfold_program. walk; paced_leaves.
Qed.

Lemma while_true_paced (fuel : nat) : respects grows_paced (while_true E fuel).
Proof.
  induction fuel as [| fuel IH]; cbn [while_true].
  - walk.
  - apply respects_bind; [typeclasses eauto | apply loop_iteration_paced |].
    intros []; [exact IH | walk].
Qed.

Lemma main_paced (argv : list string) (fuel : nat) :
  respects grows_paced (main E argv fuel).
Proof.
  unfold main, main_body. apply respects_try_except.
  - typeclasses eauto.
  - apply respects_bind; [typeclasses eauto | | intro].
    + unfold_program. walk; paced_leaves.
    + apply while_true_paced.
  - intros e handler Hh. destruct e; cbn in Hh; try discriminate Hh;
      injection Hh as <-; unfold_program; walk; paced_leaves.
Qed.

(** X11.  [main] never calls [reconnect] without having slept three
    seconds right before: in the calls of any run of [main], the call that
    precedes a [reconnect] is [sleep(3)]. *)
Theorem reconnect_follows_a_sleep
  (argv : list string) (fuel : nat) (w : World) (before rest : list call) :
  calls_of (main E argv fuel) w = (before ++ Reconnect :: rest)%list ->
  exists earlier, before = (earlier ++ [Sleep 3])%list.
Proof.
  intro Hcalls.
  destruct (main_paced argv fuel w) as [l [Hl Hp]].
  assert (Hsame : calls_of (main E argv fuel) w = l).
  { unfold calls_of. now rewrite Hl, skipn_app, skipn_all, Nat.sub_diag. }
  rewrite Hsame in Hcalls.
  destruct (paced_spec l before rest false Hp Hcalls) as [[_ Hf] | Hex];
    [discriminate Hf | exact Hex].
Qed.

End Pacing.

(** ** The topic and quality of service of every publish *)

#[export] Instance publishes_as_configured_Step : Step publishes_as_configured.
Proof.
  split; unfold publishes_as_configured.
  - intro w. split; [reflexivity |]. exists []. now rewrite app_nil_r.
  - intros a b c [Kab [l1 [H1 F1]]] [Kbc [l2 [H2 F2]]]. split.
    + intros k Hk. now rewrite Kbc, Kab.
    + exists (l1 ++ l2)%list. split; [now rewrite H2, H1, app_assoc |].
      apply Forall_app. split; [exact F1 |].
      eapply Forall_impl; [| exact F2].
      intros [] Hc; cbn in Hc |- *; auto.
      rewrite !Kab in Hc by discriminate. exact Hc.
Qed.

(** The leaves of a walk for [publishes_as_configured]: a step that leaves
    the configuration alone and makes no [publish] call. *)
Ltac configured_leaves :=
  first
    [ apply respects_modify; intro; split; [reflexivity |]; exists [];
      split; [cbn; now rewrite app_nil_r | constructor]
    | apply respects_extern; intro; split; [reflexivity |]; eexists [_];
      split; [reflexivity | repeat constructor]
    | apply respects_modify; intro; split; [reflexivity |]; eexists [_];
      split; [reflexivity | repeat constructor] ].

Section Configured.
Variable E : Env.

Lemma publish_telemetry_as_configured :
  respects publishes_as_configured (publish_telemetry E).
Proof.
  intro w.
  unfold after, publish_telemetry, get_timestamp, set_telemetry_item, config,
    print, bind, extern, modify, get, lift.
  cbn [fst snd configuration telemetry trace record_call set_telemetry].
  destruct (py_getitem (configuration w) "publishTopic") as [topic | e] eqn:Ht;
    cbn [fst snd configuration telemetry trace record_call set_telemetry].
  2:{ split; [reflexivity |]. exists [DatetimeNow]. repeat constructor. }
  destruct (py_getitem (configuration w) "brokerQoS") as [qos | e] eqn:Hq;
    cbn [fst snd configuration telemetry trace record_call set_telemetry].
  2:{ split; [reflexivity |]. exists [DatetimeNow]. repeat constructor. }
  assert (Hpub : forall body,
            Forall (as_configured (configuration w))
              [DatetimeNow; Publish topic body qos]).
  { intro body. repeat constructor; assumption. }
  destruct (env_effect E _ _) as [[] | e];
    cbn [fst snd configuration telemetry trace record_call set_telemetry
         record_line].
  - destruct (py_str_operand topic);
      (split; [reflexivity |]); eexists [_; _];
      (split; [cbn [fst snd trace record_line record_call set_telemetry];
               now rewrite <- app_assoc | apply Hpub]).
  - split; [reflexivity |]. eexists [_; _].
    split; [cbn [fst snd trace record_line record_call set_telemetry];
            now rewrite <- app_assoc | apply Hpub].
Qed.

Lemma change_telemetry_interval_as_configured (message : json) :
  respects publishes_as_configured (change_telemetry_interval message).
Proof.
  intro w. split.
  - intros k Hk.
    destruct (change_telemetry_interval_configuration message w)
      as [Hsame | [old [new [_ [_ [_ [_ Hset]]]]]]].
    + now rewrite Hsame.
    + now apply (py_setitem_other _ _ k _ _ Hset).
  - exists [].
    assert (Htrace : respects (same trace) (change_telemetry_interval message))
      by (unfold change_telemetry_interval; frame).
    split; [now rewrite (Htrace w), app_nil_r | constructor].
Qed.

(** A walk that stops at the steps [leaf] solves. *)
Ltac walk_to leaf :=
  repeat first
    [ leaf
    | solve [apply respects_ret; typeclasses eauto]
    | solve [apply respects_raise; typeclasses eauto]
    | solve [apply respects_lift; typeclasses eauto]
    | solve [apply respects_get; typeclasses eauto]
    | apply respects_bind; [typeclasses eauto | | intro]
    | apply respects_try_except;
      [ typeclasses eauto |
      | let e := fresh "e" in
        let hd := fresh "handler" in
        let Hh := fresh "Hh" in
        intros e hd Hh; destruct e; simpl in Hh;
        try discriminate Hh; try (injection Hh as <-) ]
    | match goal with
      | |- respects _ (if ?b then _ else _) => destruct b
      | |- respects _ (match ?x with _ => _ end) => destruct x
      end ].

Ltac configured :=
  walk_to ltac:(first
                  [ apply publish_telemetry_as_configured
                  | apply change_telemetry_interval_as_configured
                  | configured_leaves ]).

Lemma on_message_as_configured (msg : payload) :
  respects publishes_as_configured (on_message E msg).
Proof.
  unfold on_message, json_loads, poll_telemetry, epoch_time,
    set_telemetry_item, print.
  configured.
Qed.

Lemma loop_iteration_as_configured :
  respects publishes_as_configured (loop_iteration E).
Proof.
  unfold loop_iteration, check_connection, scheduled_publish, close_mqtt,
    poll_telemetry, epoch_time, set_telemetry_item, config, print.
  configured.
Qed.

Lemma while_true_as_configured (fuel : nat) :
  respects publishes_as_configured (while_true E fuel).
Proof.
  induction fuel as [| fuel IH]; cbn [while_true].
  - walk.
  - apply respects_bind;
      [typeclasses eauto | apply loop_iteration_as_configured |].
    intros []; [exact IH | walk].
Qed.

(** X12.  Telemetry goes to the configured topic only: every [publish]
    call made by the loop or by the message handler carries the
    [publishTopic] and the [brokerQoS] that the configuration held when the
    loop or the handler started. *)
Theorem publish_uses_configured_topic
  (w : World) (topic qos : json) (body : dict) :
  (forall fuel,
     In (Publish topic body qos) (calls_of (while_true E fuel) w) ->
     py_getitem (configuration w) "publishTopic" = Ok topic
     /\ py_getitem (configuration w) "brokerQoS" = Ok qos)
  /\ (forall msg,
        In (Publish topic body qos) (calls_of (on_message E msg) w) ->
        py_getitem (configuration w) "publishTopic" = Ok topic
        /\ py_getitem (configuration w) "brokerQoS" = Ok qos).
Proof.
  assert (Hin : forall A (m : M A),
            publishes_as_configured w (after m w) ->
            In (Publish topic body qos) (calls_of m w) ->
            py_getitem (configuration w) "publishTopic" = Ok topic
            /\ py_getitem (configuration w) "brokerQoS" = Ok qos).
  { intros A m [_ [l [Hl Fl]]] Hcall. unfold calls_of in Hcall.
    rewrite Hl, skipn_app, skipn_all, Nat.sub_diag in Hcall. cbn in Hcall.
    rewrite Forall_forall in Fl. exact (Fl _ Hcall). }
  split.
  - intros fuel. apply Hin. apply while_true_as_configured.
  - intros msg. apply Hin. apply on_message_as_configured.
Qed.

End Configured.

(** ** When the IP address cannot be resolved *)

(** X13.  [get_ip] raises in two cases only: the probe socket cannot be
    created, an error that line 83 lets through because it is outside the
    [try] statement; or the probe raises an exception that is not an
    [OSError]. *)
Theorem get_ip_raises_iff (E : Env) (w : World) (e : exn) :
  outcome (get_ip E) w = Raise e
  <-> env_effect E (List.length (trace w)) SocketNew = Raise e
      \/ (env_effect E (List.length (trace w)) SocketNew = Ok tt
          /\ udp_probe E (S (List.length (trace w))) = Raise e
          /\ is_OSError e = false).
Proof.
  unfold outcome, get_ip, udp_probe, try_finally, try_except, bind, extern,
    modify, ret.
  destruct (env_effect E (List.length (trace w)) SocketNew) as [[] | e0].
  - cbn [trace record_call fst snd]. rewrite ?length_app. cbn [List.length].
    rewrite ?Nat.add_1_r.
    destruct (env_effect E (S (List.length (trace w)))
                (SockConnect "8.8.8.8" 80)) as [[] | e1].
    + cbn [trace record_call fst snd]. rewrite ?length_app.
      cbn [List.length]. rewrite ?Nat.add_1_r.
      destruct (env_getsockname E (S (S (List.length (trace w)))))
        as [ip | e2]; cbn [fst snd].
      * split; [discriminate |]. intros [H | [_ [H _]]]; discriminate H.
      * destruct e2; cbn [is_OSError fst snd]; split;
          try discriminate;
          try (intros [H | [_ [H Hos]]]; [discriminate H |];
               injection H as <-; discriminate Hos);
          try (intro H; right; injection H as <-; auto);
          try (intros [H | [_ [H _]]]; [discriminate H | exact H]).
    + destruct e1; cbn [is_OSError fst snd]; split;
        try discriminate;
        try (intros [H | [_ [H Hos]]]; [discriminate H |];
             injection H as <-; discriminate Hos);
        try (intro H; right; injection H as <-; auto);
        try (intros [H | [_ [H _]]]; [discriminate H | exact H]).
  - cbn [fst snd]. split.
    + intro H. injection H as <-. now left.
    + intros [H | [H _]]; [injection H as <-; reflexivity | discriminate H].
Qed.

(** ** What the handler and the loop never do *)

Section Never.
Variable E : Env.

(** X14.  The message handler never touches the connection: whatever the
    message, the only calls it makes read the sensor, read the clock or
    publish. *)
Theorem handler_only_samples_and_publishes (msg : payload) (w : World) :
  trace (after (on_message E msg) w)
  = (trace w ++ calls_of (on_message E msg) w)%list
  /\ forallb is_handler_call (calls_of (on_message E msg) w) = true.
Proof.
  apply grows_calls_of.
  revert w. change (respects (grows is_handler_call) (on_message E msg)).
  frame_handler.
Qed.

Lemma check_connection_goes_on (w : World) :
  never_times_out E -> outcome (check_connection E) w <> Ok Break.
Proof.
  intro Hnever. unfold outcome, check_connection, try_except, bind, extern.
  destruct (env_is_connected E _) as [[|] | e]; cbn [negb ret fst snd];
    try discriminate.
  cbn [trace record_call].
  destruct (Hnever (List.length (trace w ++ [IsConnected]))) as [Hsleep _].
  destruct (env_effect E _ (Sleep 3)) as [[] | e].
  - cbn [trace record_call].
    destruct (Hnever (List.length ((trace w ++ [IsConnected]) ++ [Sleep 3])))
      as [_ Hre].
    destruct (env_effect E _ Reconnect) as [[] | e]; cbn [fst snd];
      [discriminate |].
    destruct e; cbn [fst snd]; try discriminate. now destruct Hre.
  - destruct e; cbn [fst snd]; try discriminate. now destruct Hsleep.
Qed.

(** X15.  The loop does not end on its own: as long as no [sleep] and no
    [reconnect] raises [TimeoutError], [while True] never reaches the
    [break] of line 178, so it runs on or ends with an exception. *)
Theorem loop_ends_only_on_timeout (fuel : nat) (w : World) :
  never_times_out E -> outcome (while_true E fuel) w <> Ok Returned.
Proof.
  intro Hnever. revert w. induction fuel as [| fuel IH]; intro w.
  - discriminate.
  - cbn [while_true]. unfold loop_iteration, outcome, bind.
    pose proof (check_connection_goes_on w Hnever) as Hgo.
    unfold outcome in Hgo.
    destruct (check_connection E w) as [[[|] | e] w1]; cbn [fst snd] in *;
      [| now destruct Hgo | discriminate].
    destruct (scheduled_publish E w1) as [[[] | e] w2]; cbn [fst snd ret];
      [apply IH | discriminate].
Qed.

End Never.

(** ** From the startup sequence into the loop *)

Section FirstPublish.
Variable E : Env.

(** The world a startup sequence that meets no error ends in. *)
Lemma startup_runs (argv : list string) (w : World) (c : dict)
  (address port publish_topic control_topic ip host : string)
  (qos interval : json) (p rc : Z) :
  env_load E (List.length (trace w)) (chosen_file argv w) = Ok (JDict c) ->
  dict_get c "brokerAddress" = Some (JStr address) ->
  dict_get c "brokerPort" = Some (JStr port) ->
  dict_get c "publishTopic" = Some (JStr publish_topic) ->
  dict_get c "controlTopic" = Some (JStr control_topic) ->
  dict_get c "brokerQoS" = Some qos ->
  dict_get c "publishInterval" = Some interval ->
  env_int_of_str E port = Some p ->
  env_effect E (List.length (trace w) + 1) SocketNew = Ok tt ->
  env_effect E (List.length (trace w) + 2) (SockConnect "8.8.8.8" 80)
  = Ok tt ->
  env_getsockname E (List.length (trace w) + 3) = Ok ip ->
  env_gethostname E (List.length (trace w) + 5) = Ok host ->
  env_effect E (List.length (trace w) + 8) (Connect (JStr address) p)
  = Ok tt ->
  env_subscribe E (List.length (trace w) + 9)
    (Subscribe (JStr control_topic) qos) = Ok rc ->
  env_effect E (List.length (trace w) + 10) LoopStart = Ok tt ->
  exists w',
    startup E argv w = (Ok tt, w')
    /\ trace w'
       = (trace w
          ++ [OpenLoad (chosen_file argv w); SocketNew;
              SockConnect "8.8.8.8" 80; SockGetsockname; SockClose;
              GetHostname; DatetimeNow; DatetimeNow;
              Connect (JStr address) p;
              Subscribe (JStr control_topic) qos; LoopStart])%list
    /\ configuration w' = JDict c
    /\ telemetry w'
       = static_record (telemetry w) c ip host
           (env_strftime E (List.length (trace w) + 6))
           (JStr address) (JStr port)
    /\ last_publish w' = last_publish w.
Proof.
  intros Hload Haddr Hport Hptopic Hctopic Hqos Hinterval Hint
    Hnew Hconn Hname Hhost Hconnect Hsub Hstart.
  unary_index Hconn. unary_index Hname. unary_index Hhost.
  unary_index Hconnect. unary_index Hsub. unary_index Hstart.
  replace (List.length (trace w) + 6)%nat
    with (List.length (trace w) + 1 + 1 + 1 + 1 + 1 + 1)%nat by lia.
  unfold startup, chosen_file, static_record, set_telemetry_item,
    get_timestamp in *.
  destruct (nth_error argv 1) as [name |];
    destruct (dict_get c "notes") as [notes |] eqn:Hnotes;
    destruct (rc =? 0) eqn:Hrc;
    eexists; (split; [| shelve]).
  all: run.
  all: erewrite (bind_ok (get_ip E)) by (apply get_ip_ok; norm; eassumption).
  all: wnorm; run.
  all: cbn [py_contains]; unfold dict_mem; rewrite Hnotes.
  all: run.
  all: cbn [py_getitem]; rewrite !dict_get_set_other by discriminate;
    rewrite dict_get_set_same.
  all: run.
  all: cbn [py_int]; rewrite Hint.
  all: run.
  all: rewrite Hrc.
  all: run.
  all: unfold extern; norm; rewrite Hstart; reflexivity.
  Unshelve.
  all: wnorm; rewrite <- !app_assoc; auto.
Qed.


End FirstPublish.

(** ** A configuration without a broker address *)

Section MissingKey.
Variable E : Env.

Lemma bind_config_missing {B} (key : string) (c : dict)
  (k : json -> M B) (w : World) :
  configuration w = JDict c ->
  dict_get c key = None ->
  bind (config key) k w = (Raise (KeyError key), w).
Proof.
  intros Hc Hv. unfold config, bind, get, lift. rewrite Hc. cbn [py_getitem].
  now rewrite Hv.
Qed.

(** X17.  A configuration file without a [brokerAddress] stops [main] at
    line 143, before any call on the MQTT client: the [KeyError] is caught
    at line 189, its message is the last line printed, and [main] returns
    without connecting and without calling [close_mqtt]. *)
Theorem missing_broker_address_ends_main
  (argv : list string) (fuel : nat) (w : World) (c : dict)
  (ip host : string) :
  env_load E (List.length (trace w)) (chosen_file argv w) = Ok (JDict c) ->
  dict_get c "brokerAddress" = None ->
  env_effect E (List.length (trace w) + 1) SocketNew = Ok tt ->
  env_effect E (List.length (trace w) + 2) (SockConnect "8.8.8.8" 80)
  = Ok tt ->
  env_getsockname E (List.length (trace w) + 3) = Ok ip ->
  env_gethostname E (List.length (trace w) + 5) = Ok host ->
  outcome (main E argv fuel) w = Ok Returned
  /\ calls_of (main E argv fuel) w
     = [OpenLoad (chosen_file argv w); SocketNew; SockConnect "8.8.8.8" 80;
        SockGetsockname; SockClose; GetHostname; DatetimeNow]
  /\ stdout (after (main E argv fuel) w)
     = (stdout w
        ++ [[Lit ("Using " ++ chosen_file argv w ++ " as the config file.")];
            [Lit "Python dictionary key error: ";
             StrExn (KeyError "brokerAddress")]])%list
  /\ last_publish (after (main E argv fuel) w) = last_publish w.
Proof.
  intros Hload Hmissing Hnew Hconn Hname Hhost.
  unary_index Hconn. unary_index Hname. unary_index Hhost.
  assert (Hrun : exists w',
            startup E argv w = (Raise (KeyError "brokerAddress"), w')
            /\ trace w'
               = (trace w
                  ++ [OpenLoad (chosen_file argv w); SocketNew;
                      SockConnect "8.8.8.8" 80; SockGetsockname; SockClose;
                      GetHostname; DatetimeNow])%list
            /\ stdout w'
               = (stdout w
                  ++ [[Lit ("Using " ++ chosen_file argv w
                            ++ " as the config file.")]])%list
            /\ last_publish w' = last_publish w).
  { unfold startup, chosen_file, set_telemetry_item, get_timestamp in *.
    destruct (nth_error argv 1) as [name |];
      destruct (dict_get c "notes") as [notes |] eqn:Hnotes;
      eexists; (split; [| shelve]).
    all: run.
    all: erewrite (bind_ok (get_ip E)) by (apply get_ip_ok; norm; eassumption).
    all: wnorm; run.
    all: cbn [py_contains]; unfold dict_mem; rewrite Hnotes.
    all: run.
    all: erewrite bind_config_missing by (wnorm; eauto).
    all: reflexivity.
    Unshelve.
    all: wnorm; rewrite <- !app_assoc; auto. }
  destruct Hrun as [w' [Hrun [Htrace [Hout Hlast]]]].
  unfold calls_of, outcome, after, main, main_body, try_except, bind.
  rewrite Hrun. cbn [main_handlers].
  unfold bind, print, modify, ret. cbn [fst snd].
  wnorm. rewrite Htrace, Hout, Hlast, skipn_app, skipn_all, Nat.sub_diag.
  rewrite <- app_assoc. auto.
Qed.

End MissingKey.

Lemma missing_broker_address_ends_main_witness :
  outcome
    (main (with_load (fun _ _ => Ok (JDict [("brokerPort", JStr "1883")]))
             quiet_env)
       ["LinuxStatsToMQTT.py"] 5)
    fresh_world
  = Ok Returned.
Proof.
  exact (proj1 (missing_broker_address_ends_main
                  (with_load
                     (fun _ _ => Ok (JDict [("brokerPort", JStr "1883")]))
                     quiet_env)
                  ["LinuxStatsToMQTT.py"] 5 fresh_world
                  [("brokerPort", JStr "1883")] "192.168.1.7" "pi"
                  eq_refl eq_refl eq_refl eq_refl eq_refl eq_refl)).
Defined.

(** ** An interval that is not a number *)

Section Interval.
Variable E : Env.

Lemma loop_iteration_needs_a_number (w : World) (c : dict) (v : json) :
  configuration w = JDict c ->
  dict_get c "publishInterval" = Some v ->
  as_num v = None ->
  env_is_connected E (List.length (trace w)) = Ok true ->
  loop_iteration E w
  = (Raise TypeError, record_call TimeTime (record_call IsConnected w)).
Proof.
  intros Hc Hv Hnum Hlive.
  unfold loop_iteration, check_connection, scheduled_publish, epoch_time,
    config, bind, extern, get, lift.
  rewrite Hlive. cbn [negb ret fst snd configuration record_call].
  rewrite Hc. cbn [py_getitem]. rewrite Hv. unfold py_int_sub.
  now rewrite Hnum.
Qed.

(** X18.  A [publishInterval] that is not a number (written as a string in
    the configuration file, say) passes the startup sequence, which only
    prints it, and stops the program in the first iteration of the loop:
    the subtraction of line 181 raises [TypeError], which no [except]
    clause of [main] catches, so [main] ends with the exception and without
    [close_mqtt]. *)
Theorem non_numeric_interval_stops_main
  (argv : list string) (fuel : nat) (w : World) (c : dict)
  (address port publish_topic control_topic ip host : string)
  (qos interval : json) (p rc : Z) :
  env_load E (List.length (trace w)) (chosen_file argv w) = Ok (JDict c) ->
  dict_get c "brokerAddress" = Some (JStr address) ->
  dict_get c "brokerPort" = Some (JStr port) ->
  dict_get c "publishTopic" = Some (JStr publish_topic) ->
  dict_get c "controlTopic" = Some (JStr control_topic) ->
  dict_get c "brokerQoS" = Some qos ->
  dict_get c "publishInterval" = Some interval ->
  as_num interval = None ->
  env_int_of_str E port = Some p ->
  env_effect E (List.length (trace w) + 1) SocketNew = Ok tt ->
  env_effect E (List.length (trace w) + 2) (SockConnect "8.8.8.8" 80)
  = Ok tt ->
  env_getsockname E (List.length (trace w) + 3) = Ok ip ->
  env_gethostname E (List.length (trace w) + 5) = Ok host ->
  env_effect E (List.length (trace w) + 8) (Connect (JStr address) p)
  = Ok tt ->
  env_subscribe E (List.length (trace w) + 9)
    (Subscribe (JStr control_topic) qos) = Ok rc ->
  env_effect E (List.length (trace w) + 10) LoopStart = Ok tt ->
  env_is_connected E (List.length (trace w) + 11) = Ok true ->
  outcome (main E argv (S fuel)) w = Raise TypeError
  /\ calls_of (main E argv (S fuel)) w
     = [OpenLoad (chosen_file argv w); SocketNew; SockConnect "8.8.8.8" 80;
        SockGetsockname; SockClose; GetHostname; DatetimeNow; DatetimeNow;
        Connect (JStr address) p; Subscribe (JStr control_topic) qos;
        LoopStart; IsConnected; TimeTime].
Proof.
  intros Hload Haddr Hport Hptopic Hctopic Hqos Hinterval Hnum Hint
    Hnew Hconn Hname Hhost Hconnect Hsub Hstart Hlive.
  destruct (startup_runs E argv w c address port publish_topic control_topic
              ip host qos interval p rc)
    as [w1 [Hrun [Htr [Hc _]]]]; auto.
  assert (Hn : List.length (trace w1) = (List.length (trace w) + 11)%nat)
    by (rewrite Htr, length_app; reflexivity).
  rewrite <- Hn in Hlive.
  pose proof (loop_iteration_needs_a_number w1 c interval Hc Hinterval Hnum
                Hlive) as Hstep.
  assert (Hmain :
            main E argv (S fuel) w
            = (Raise TypeError,
               record_call TimeTime (record_call IsConnected w1))).
  { unfold main, main_body, try_except.
    rewrite (bind_ok _ _ _ _ _ Hrun). cbn [while_true].
    unfold bind. now rewrite Hstep. }
  unfold calls_of, outcome, after. rewrite Hmain. cbn [fst snd]. wnorm.
  rewrite Htr, <- !app_assoc, skipn_app, skipn_all, Nat.sub_diag. auto.
Qed.

End Interval.

Lemma non_numeric_interval_stops_main_witness :
  outcome
    (main (with_load
             (fun _ _ =>
                Ok (JDict [("brokerAddress", JStr "10.0.0.2");
                           ("brokerPort", JStr "1883"); ("brokerQoS", JInt 1);
                           ("publishTopic", JStr "stats/pi");
                           ("controlTopic", JStr "control/pi");
                           ("publishInterval", JStr "10")]))
             quiet_env)
       ["LinuxStatsToMQTT.py"] 1)
    fresh_world
  = Raise TypeError.
Proof.
  exact (proj1 (non_numeric_interval_stops_main
                  (with_load
                     (fun _ _ =>
                        Ok (JDict [("brokerAddress", JStr "10.0.0.2");
                                   ("brokerPort", JStr "1883");
                                   ("brokerQoS", JInt 1);
                                   ("publishTopic", JStr "stats/pi");
                                   ("controlTopic", JStr "control/pi");
                                   ("publishInterval", JStr "10")]))
                     quiet_env)
                  ["LinuxStatsToMQTT.py"] 0 fresh_world
                  [("brokerAddress", JStr "10.0.0.2");
                   ("brokerPort", JStr "1883"); ("brokerQoS", JInt 1);
                   ("publishTopic", JStr "stats/pi");
                   ("controlTopic", JStr "control/pi");
                   ("publishInterval", JStr "10")]
                  "10.0.0.2" "1883" "stats/pi" "control/pi" "192.168.1.7"
                  "pi" (JInt 1) (JStr "10") 1883 0
                  eq_refl eq_refl eq_refl eq_refl eq_refl eq_refl eq_refl
                  eq_refl eq_refl eq_refl eq_refl eq_refl eq_refl eq_refl
                  eq_refl eq_refl eq_refl)).
Defined.

(** ** The properties at sample inputs *)


Lemma format_mac_shape_witness :
  0 <= 2 ^ 52 + 5
  /\ String.length (format_mac (2 ^ 52 + 5)) = 17%nat
  /\ String.get 2 (format_mac (2 ^ 52 + 5)) = Some ":"%char.
Proof.
  split; [lia |].
  destruct (format_mac_shape (2 ^ 52 + 5) ltac:(lia)) as [Hlen Hcolon].
  split; [exact Hlen | apply Hcolon; left; reflexivity].
Defined.

Lemma publish_telemetry_command_witness :
  outcome (on_message quiet_env (command "publishTelemetry")) sample_world
  = Ok tt
  /\ calls_of (on_message quiet_env (command "publishTelemetry")) sample_world
     = [CpuTemperature; DatetimeNow;
        Publish (JStr "stats/pi")
          (sampled_record quiet_env (telemetry sample_world) temp42 1)
          (JInt 1);
        TimeTime]
  /\ last_publish
       (after (on_message quiet_env (command "publishTelemetry"))
          sample_world)
     = 1003.
Proof.
  destruct (publish_telemetry_command quiet_env sample_world
              [("brokerAddress", JStr "10.0.0.2"); ("brokerPort", JStr "1883");
               ("brokerQoS", JInt 1); ("publishTopic", JStr "stats/pi");
               ("controlTopic", JStr "control/pi");
               ("publishInterval", JInt 10)]
              [("command", JStr "publishTelemetry")]
              "stats/pi" (JInt 1) temp42
              eq_refl eq_refl eq_refl eq_refl eq_refl eq_refl)
    as [Hout [_ [_ [Hcalls Hlast]]]].
  split; [exact Hout | split; [exact Hcalls | exact Hlast]].
Defined.

Lemma last_publish_follows_a_publish_witness :
  outcome (scheduled_publish failing_publish_env) sample_world
  = Raise OSError
  /\ existsb is_publish
       (calls_of (scheduled_publish failing_publish_env) sample_world)
     = true
  /\ last_publish (after (scheduled_publish failing_publish_env) sample_world)
     = 0.
Proof.
  split; [reflexivity | split; [reflexivity |]].
  apply (proj1 (proj2 (proj2
                  (last_publish_follows_a_publish failing_publish_env)))
           sample_world).
  intro Hout. vm_compute in Hout. discriminate Hout.
Defined.

Lemma handler_returns_with_configuration_unchanged_witness :
  outcome (on_message quiet_env (command "publishTelemetry")) sample_world
  = Ok tt
  /\ configuration
       (after (on_message quiet_env (command "publishTelemetry"))
          sample_world)
     = sample_configuration.
Proof.
  split; [reflexivity |].
  exact (handler_returns_with_configuration_unchanged quiet_env
           (command "publishTelemetry") sample_world eq_refl).
Defined.

Lemma command_must_be_a_string_witness :
  on_message quiet_env (Parsed (JDict [("command", JInt 5)])) sample_world
  = (Raise TypeError,
     record_line [Dumps Tab (JDict [("command", JInt 5)])] sample_world).
Proof.
  apply (command_must_be_a_string quiet_env sample_world
           [("command", JInt 5)] (JInt 5) eq_refl).
  intros s Hs. discriminate Hs.
Defined.

Lemma change_interval_needs_a_value_witness :
  outcome (on_message quiet_env (command "changeTelemetryInterval"))
    sample_world
  = Raise (KeyError "value")
  /\ configuration
       (after (on_message quiet_env (command "changeTelemetryInterval"))
          sample_world)
     = sample_configuration.
Proof.
  pose proof (change_interval_needs_a_value quiet_env sample_world
                [("brokerAddress", JStr "10.0.0.2");
                 ("brokerPort", JStr "1883");
                 ("brokerQoS", JInt 1); ("publishTopic", JStr "stats/pi");
                 ("controlTopic", JStr "control/pi");
                 ("publishInterval", JInt 10)]
                [("command", JStr "changeTelemetryInterval")]
                (JInt 10) eq_refl eq_refl eq_refl eq_refl) as Hrun.
  unfold outcome, after, command. rewrite Hrun. split; reflexivity.
Defined.

Lemma identity_fields_are_kept_witness :
  dict_get
    (telemetry
       (after (on_message quiet_env (command "publishTelemetry"))
          sample_world))
    "macAddress"
  = Some (JStr "B8:27:EB:12:34:56").
Proof.
  exact (proj1 (identity_fields_are_kept quiet_env "macAddress"
                  ltac:(discriminate) ltac:(discriminate))
           (command "publishTelemetry") sample_world).
Defined.

Lemma reconnect_follows_a_sleep_witness :
  exists earlier,
    [OpenLoad "config.json"; SocketNew; SockConnect "8.8.8.8" 80;
     SockGetsockname; SockClose; GetHostname; DatetimeNow; DatetimeNow;
     Connect (JStr "10.0.0.2") 1883; Subscribe (JStr "control/pi") (JInt 1);
     LoopStart; IsConnected; Sleep 3]
    = (earlier ++ [Sleep 3])%list.
Proof.
  apply (reconnect_follows_a_sleep
           (with_is_connected (fun _ => Ok false) quiet_env)
           ["LinuxStatsToMQTT.py"] 1 fresh_world _
           (skipn 14
              (calls_of
                 (main (with_is_connected (fun _ => Ok false) quiet_env)
                    ["LinuxStatsToMQTT.py"] 1)
                 fresh_world))).
  vm_compute. reflexivity.
Defined.

Lemma publish_uses_configured_topic_witness :
  py_getitem (configuration sample_world) "publishTopic"
  = Ok (JStr "stats/pi")
  /\ py_getitem (configuration sample_world) "brokerQoS" = Ok (JInt 1).
Proof.
  apply (proj2 (publish_uses_configured_topic quiet_env sample_world
                  (JStr "stats/pi") (JInt 1)
                  (sampled_record quiet_env (telemetry sample_world)
                     temp42 1))
           (command "publishTelemetry")).
  vm_compute. right. right. left. reflexivity.
Defined.

Lemma quiet_env_never_times_out : never_times_out quiet_env.
Proof. intro n. split; discriminate. Qed.

Lemma loop_ends_only_on_timeout_witness :
  outcome (while_true quiet_env 3) waiting_world <> Ok Returned.
Proof.
  exact (loop_ends_only_on_timeout quiet_env 3 waiting_world
           quiet_env_never_times_out).
Defined.

